(** * rag-mlops: chunker, session memory and chat orchestration

    A shallow embedding of
      - [backend/app/services/document.py]  ([DocumentService.chunk_text]),
      - [backend/app/services/memory.py]    ([Message], [ConversationSession],
        [SessionMemoryService]),
      - [backend/app/api/routes.py]         ([chat]),
    together with the Python built-ins these functions rely on
    ([str.split], [str.join], [str.strip], [str.capitalize], [repr], list
    slices, [range]).

    Conventions.
      - A Python [int] is a [Z]; a [str] is a [string] whose characters are
        read as code points below 256.
      - A [datetime] is a [Z] (microseconds), and so is a [timedelta].
      - A raised exception is the [Raise] result; state changes made before
        the raise are kept, as in Python. *)

From Stdlib Require Import ZArith Lia.
From stdpp Require Import base gmap strings list pretty.

Local Open Scope Z_scope.

#[local] Set Warnings "-clear-no-such-hyp".

(** ** Exceptions and results *)

Inductive exn : Type :=
  | ValueError (msg : string)
  | IndexError (msg : string)
  | KeyError (key : string)
  | RuntimeError (msg : string)
  | HTTPException (status_code : Z) (detail : string).

Inductive result (A : Type) : Type :=
  | Return (a : A)
  | Raise (e : exn).
Arguments Return {A} a.
Arguments Raise {A} e.

Definition raises {A} (r : result A) : Prop := ∃ e, r = Raise e.

(** ** Python built-ins *)

Module Py.

(** [len(l)] *)
Definition len {A} (l : list A) : Z := Z.of_nat (length l).

(** [str.isspace] on one character: the code points below 256 that Python
    treats as whitespace. *)
Definition isspace (c : Ascii.ascii) : bool :=
  let n := Ascii.N_of_ascii c in
  ((9 <=? n) && (n <=? 13) || (28 <=? n) && (n <=? 32)
   || (n =? 133) || (n =? 160))%N.

(** Truth value of a [str]: non-empty. *)
Definition truthy (s : string) : bool :=
  match s with EmptyString => false | String _ _ => true end.

(** [s.split()]: maximal runs of non-whitespace characters. [w] is the
    word being read. *)
Fixpoint split_from (w : string) (s : string) : list string :=
  match s with
  | EmptyString => if truthy w then [w] else []
  | String c s' =>
      if isspace c
      then (if truthy w then w :: split_from EmptyString s'
            else split_from EmptyString s')
      else split_from (w +:+ String c EmptyString) s'
  end.

Definition split (s : string) : list string := split_from EmptyString s.

(** [sep.join(l)] *)
Fixpoint join (sep : string) (l : list string) : string :=
  match l with
  | [] => EmptyString
  | [x] => x
  | x :: rest => x +:+ sep +:+ join sep rest
  end.

Fixpoint lstrip (s : string) : string :=
  match s with
  | EmptyString => EmptyString
  | String c s' => if isspace c then lstrip s' else s
  end.

Fixpoint rstrip (s : string) : string :=
  match s with
  | EmptyString => EmptyString
  | String c s' =>
      match rstrip s' with
      | EmptyString => if isspace c then EmptyString else String c EmptyString
      | r => String c r
      end
  end.

(** [s.strip()] *)
Definition strip (s : string) : string := rstrip (lstrip s).

(** A slice bound [i] of a sequence of length [n], as Python adjusts it:
    a negative bound counts from the end, and the result is clamped to
    [0 .. n]. *)
Definition slice_index (n i : Z) : Z :=
  if i <? 0 then Z.max (i + n) 0 else Z.min i n.

(** [l[lo:hi]]; [None] is an omitted bound. *)
Definition slice {A} (lo hi : option Z) (l : list A) : list A :=
  let n := len l in
  let a := match lo with None => 0 | Some i => slice_index n i end in
  let b := match hi with None => n | Some j => slice_index n j end in
  take (Z.to_nat (b - a)) (drop (Z.to_nat a) l).

(** Number of elements of [range(lo, hi, step)] for a non-zero step. *)
Definition range_length (lo hi step : Z) : nat :=
  if 0 <? step
  then (if lo <? hi then Z.to_nat ((hi - lo - 1) / step + 1) else 0%nat)
  else (if hi <? lo then Z.to_nat ((lo - hi - 1) / (- step) + 1) else 0%nat).

(** [range(lo, hi, step)], which raises [ValueError] on a zero step. *)
Definition range (lo hi step : Z) : result (list Z) :=
  if step =? 0
  then Raise (ValueError "range() arg 3 must not be zero")
  else Return (map (λ k : nat, lo + Z.of_nat k * step)
                   (seq 0 (range_length lo hi step))).

(** [repr(s)] for a [str] of code points below 256. *)

Definition apostrophe : Ascii.ascii := Ascii.ascii_of_N 39.
Definition double_quote : Ascii.ascii := Ascii.ascii_of_N 34.
Definition backslash : Ascii.ascii := Ascii.ascii_of_N 92.

(** [c in s] *)
Fixpoint contains (c : Ascii.ascii) (s : string) : bool :=
  match s with
  | EmptyString => false
  | String c' s' => Ascii.eqb c c' || contains c s'
  end.

(** [c.isprintable()]: below 256 the controls (0 to 31, 127 to 159), the
    no-break space (160) and the soft hyphen (173) are not printable. *)
Definition isprintable (c : Ascii.ascii) : bool :=
  let n := Ascii.N_of_ascii c in
  ((32 <=? n) && (n <=? 126) || (161 <=? n) && negb (n =? 173))%N.

Definition hex_digit (n : N) : Ascii.ascii :=
  Ascii.ascii_of_N (if n <? 10 then 48 + n else 87 + n)%N.

(** The escape [\xhh], with two lower-case hexadecimal digits. *)
Definition hex_escape (c : Ascii.ascii) : string :=
  let n := Ascii.N_of_ascii c in
  String backslash
    (String (Ascii.ascii_of_N 120)
       (String (hex_digit (n / 16)%N)
          (String (hex_digit (n mod 16)%N) EmptyString))).

(** One character of [repr(s)] between the quotes [quote]. *)
Definition repr_char (quote c : Ascii.ascii) : string :=
  let n := Ascii.N_of_ascii c in
  if Ascii.eqb c quote || Ascii.eqb c backslash
  then String backslash (String c EmptyString)
  else if (n =? 9)%N then String backslash "t"
  else if (n =? 10)%N then String backslash "n"
  else if (n =? 13)%N then String backslash "r"
  else if isprintable c then String c EmptyString
  else hex_escape c.

Fixpoint repr_chars (quote : Ascii.ascii) (s : string) : string :=
  match s with
  | EmptyString => EmptyString
  | String c s' => repr_char quote c +:+ repr_chars quote s'
  end.

(** [repr(s)]: between apostrophes, or between double quotes when [s] has
    an apostrophe and no double quote; the quote in use and the backslash
    are escaped with a backslash. *)
Definition repr (s : string) : string :=
  let quote := if contains apostrophe s && negb (contains double_quote s)
               then double_quote else apostrophe in
  String quote (repr_chars quote s +:+ String quote EmptyString).

End Py.

(** [str(e)] for an exception built from one argument: the message, and
    for a [KeyError] the [repr] of its key. [HTTPException.__str__] gives the
    status code and the detail. *)
Definition exn_str (e : exn) : string :=
  match e with
  | ValueError msg | IndexError msg | RuntimeError msg => msg
  | KeyError key => Py.repr key
  | HTTPException status_code detail => pretty status_code +:+ ": " +:+ detail
  end.

(** ** [core/config.py] *)

Record Settings := {
  CHUNK_SIZE : Z;
  CHUNK_OVERLAP : Z
}.

(** The defaults of the [Settings] class. *)
Definition settings : Settings := {| CHUNK_SIZE := 500; CHUNK_OVERLAP := 50 |}.

(** ** [services/document.py] *)

Module DocumentService.

(** One iteration of the [for i in range(...)] loop of [chunk_text]. *)
Definition chunk_step (words : list string) (chunk_size : Z)
    (chunks : list string) (i : Z) : list string :=
  let chunk := Py.join " " (Py.slice (Some i) (Some (i + chunk_size)) words) in
  if Py.truthy (Py.strip chunk) then chunks ++ [chunk] else chunks.

Definition chunk_text (cfg : Settings) (text : string)
    (chunk_size overlap : option Z) : result (list string) :=
  let chunk_size :=
    match chunk_size with None => CHUNK_SIZE cfg | Some v => v end in
  let overlap :=
    match overlap with None => CHUNK_OVERLAP cfg | Some v => v end in
  let words := Py.split text in
  match Py.range 0 (Py.len words) (chunk_size - overlap) with
  | Raise e => Raise e
  | Return offsets => Return (fold_left (chunk_step words chunk_size) offsets [])
  end.

End DocumentService.

(** ** [services/memory.py]: data *)

Record Message := {
  role : string;          (* 'user' or 'assistant' *)
  content : string;
  timestamp : Z
}.

Record ConversationSession := {
  session_id : string;
  messages : list Message;
  max_history : Z;
  created_at : Z;
  last_access : Z
}.

Record SessionMemoryService := {
  sessions : gmap string ConversationSession;
  max_history_per_session : Z;
  session_timeout : Z
}.

(** [timedelta(hours=h)] in microseconds. *)
Definition timedelta_hours (h : Z) : Z := h * 3600 * 1000000.

(** ** Collaborator data *)

(** A Python [float], kept as its 64-bit pattern: the code only passes
    floats around. *)
Record float := { float_bits : Z }.

(** One entry of the list returned by [VectorDBService.search]. *)
Record SearchResult := {
  text : string;
  source : string;
  chunk_id : Z;
  score : float
}.

(** ** [models/schemas.py] *)

Module ChatRequest.
Record t := {
  query : string;
  top_k : option Z;
  session_id : option string
}.
End ChatRequest.

Module ChatResponse.
Record t := {
  answer : string;
  sources : list string;
  session_id : string
}.
End ChatResponse.

(** ** The world a request runs in *)

(** Calls made to the three collaborators, in order. *)
Inductive Call : Type :=
  | GenerateEmbeddings (texts : list string)
  | Search (query_embedding : list float) (top_k : option Z)
  | GenerateResponse (query context : string) (conversation_history : option string).

(** The mutable state is the global [session_memory_service] and the trace
    of collaborator calls. [datetime.now()] and [uuid.uuid4()] are oracles:
    their k-th call returns [clock k] and [uuid4 k]. The three collaborators
    are functions of their arguments; [chat] calls each at most once. *)
Record World := {
  session_memory_service : SessionMemoryService;
  clock : nat → Z;
  clock_reads : nat;
  uuid4 : nat → string;
  uuid4_draws : nat;
  generate_embeddings : list string → result (list (list float));
  search : list float → option Z → result (list SearchResult);
  generate_response : string → string → option string → result string;
  calls : list Call
}.

Definition set_memory (f : SessionMemoryService → SessionMemoryService)
    (w : World) : World :=
  {| session_memory_service := f (session_memory_service w);
     clock := clock w; clock_reads := clock_reads w;
     uuid4 := uuid4 w; uuid4_draws := uuid4_draws w;
     generate_embeddings := generate_embeddings w; search := search w;
     generate_response := generate_response w; calls := calls w |}.

Definition tick (w : World) : World :=
  {| session_memory_service := session_memory_service w;
     clock := clock w; clock_reads := S (clock_reads w);
     uuid4 := uuid4 w; uuid4_draws := uuid4_draws w;
     generate_embeddings := generate_embeddings w; search := search w;
     generate_response := generate_response w; calls := calls w |}.

Definition draw (w : World) : World :=
  {| session_memory_service := session_memory_service w;
     clock := clock w; clock_reads := clock_reads w;
     uuid4 := uuid4 w; uuid4_draws := S (uuid4_draws w);
     generate_embeddings := generate_embeddings w; search := search w;
     generate_response := generate_response w; calls := calls w |}.

Definition record_call (c : Call) (w : World) : World :=
  {| session_memory_service := session_memory_service w;
     clock := clock w; clock_reads := clock_reads w;
     uuid4 := uuid4 w; uuid4_draws := uuid4_draws w;
     generate_embeddings := generate_embeddings w; search := search w;
     generate_response := generate_response w; calls := calls w ++ [c] |}.

(** ** Computations: state and exceptions *)

Definition M (A : Type) : Type := World → result A * World.

Global Instance M_ret : MRet M := λ A a w, (Return a, w).

Global Instance M_bind : MBind M := λ A B f m w,
  match m w with
  | (Return a, w') => f a w'
  | (Raise e, w') => (Raise e, w')
  end.

Definition raise {A} (e : exn) : M A := λ w, (Raise e, w).
Definition gets {A} (f : World → A) : M A := λ w, (Return (f w), w).
Definition modify (f : World → World) : M unit := λ w, (Return tt, f w).
Definition lift {A} (r : result A) : M A := λ w, (r, w).

(** [try: body  except Exception as e: handler(e)] *)
Definition try_except {A} (body : M A) (handler : exn → M A) : M A := λ w,
  match body w with
  | (Return a, w') => (Return a, w')
  | (Raise e, w') => handler e w'
  end.

(** [datetime.now()] *)
Definition datetime_now : M Z := λ w, (Return (clock w (clock_reads w)), tick w).

(** [str(uuid.uuid4())] *)
Definition str_uuid4 : M string := λ w, (Return (uuid4 w (uuid4_draws w)), draw w).

Definition memory : M SessionMemoryService := gets session_memory_service.

(** ** [services/memory.py]: [Message] and [ConversationSession] *)

(** [Message.__init__]: [timestamp or datetime.now()] *)
Definition Message_init (role content : string) (timestamp : option Z) : M Message :=
  match timestamp with
  | Some t => mret {| role := role; content := content; timestamp := t |}
  | None =>
      t ← datetime_now;
      mret {| role := role; content := content; timestamp := t |}
  end.

Definition set_messages (msgs : list Message) (self : ConversationSession)
    : ConversationSession :=
  {| session_id := session_id self; messages := msgs;
     max_history := max_history self; created_at := created_at self;
     last_access := last_access self |}.

Definition set_last_access (t : Z) (self : ConversationSession)
    : ConversationSession :=
  {| session_id := session_id self; messages := messages self;
     max_history := max_history self; created_at := created_at self;
     last_access := t |}.

Module ConversationSession.

(** [__init__]: two clock reads, [created_at] then [last_access]. *)
Definition init (session_id : string) (max_history : Z) : M ConversationSession :=
  created_at ← datetime_now;
  last_access ← datetime_now;
  mret {| session_id := session_id; messages := [];
          max_history := max_history; created_at := created_at;
          last_access := last_access |}.

(** The bound applied after an append:
    [if len(messages) > max_history: messages = messages[-max_history:]]. *)
Definition keep_last (max_history : Z) (msgs : list Message) : list Message :=
  if max_history <? Py.len msgs
  then Py.slice (Some (- max_history)) None msgs
  else msgs.

(** [add_message] mutates [self]; the mutated object is returned. *)
Definition add_message (self : ConversationSession) (role content : string)
    : M ConversationSession :=
  message ← Message_init role content None;
  let self := set_messages (messages self ++ [message]) self in
  t ← datetime_now;
  let self := set_last_access t self in
  mret (set_messages (keep_last (max_history self) (messages self)) self).

Definition get_history (self : ConversationSession) (last_n : option Z)
    : list Message :=
  match last_n with
  | None => messages self
  | Some n => Py.slice (Some (- n)) None (messages self)
  end.

Definition clear (self : ConversationSession) : ConversationSession :=
  set_messages [] self.

End ConversationSession.

(** ** More built-ins: [str.capitalize] *)

Module PyStr.

(** [c.lower()] for a code point below 256: the ASCII capitals and the
    capitals of the Latin-1 block (192 to 222 but the sign 215) move up by
    32. *)
Definition lower (c : Ascii.ascii) : Ascii.ascii :=
  let n := Ascii.N_of_ascii c in
  if ((65 <=? n) && (n <=? 90) || (192 <=? n) && (n <=? 214)
      || (216 <=? n) && (n <=? 222))%N
  then Ascii.ascii_of_N (n + 32) else c.

(** The title-case form of a code point below 256, which [capitalize]
    gives to the first character (Python 3.8 and later): the ASCII small
    letters and those of the Latin-1 block (224 to 254 but the sign 247)
    move down by 32, and the sharp s (223) becomes [Ss]. The title-case
    forms of the micro sign (181) and of y with diaeresis (255) are the code
    points 924 and 376, which a [string] does not hold: [title] leaves these
    two as they are, and [title_below_256] is false for them. *)
Definition title (c : Ascii.ascii) : string :=
  let n := Ascii.N_of_ascii c in
  if (n =? 223)%N then "Ss"
  else if ((97 <=? n) && (n <=? 122) || (224 <=? n) && (n <=? 246)
           || (248 <=? n) && (n <=? 254))%N
  then String (Ascii.ascii_of_N (n - 32)) EmptyString
  else String c EmptyString.

Definition title_below_256 (c : Ascii.ascii) : bool :=
  let n := Ascii.N_of_ascii c in
  negb ((n =? 181) || (n =? 255))%N.

Fixpoint lower_all (s : string) : string :=
  match s with
  | EmptyString => EmptyString
  | String c s' => String (lower c) (lower_all s')
  end.

(** [s.capitalize()]: the first character in title case, the rest in lower
    case. *)
Definition capitalize (s : string) : string :=
  match s with
  | EmptyString => EmptyString
  | String c s' => title c +:+ lower_all s'
  end.

(** [s.capitalize()] is a string of code points below 256, the one
    [capitalize] gives. *)
Definition capitalize_below_256 (s : string) : bool :=
  match s with
  | EmptyString => true
  | String c _ => title_below_256 c
  end.

(** The one-character string [chr(10)]. *)
Definition newline : string := String (Ascii.ascii_of_N 10) EmptyString.

End PyStr.

(** ** [services/memory.py]: [SessionMemoryService] *)

(** [session.session_id] *)
Definition session_id_of (session : ConversationSession) : string :=
  session_id session.

Definition set_sessions (m : gmap string ConversationSession)
    (self : SessionMemoryService) : SessionMemoryService :=
  {| sessions := m;
     max_history_per_session := max_history_per_session self;
     session_timeout := session_timeout self |}.

(** The module-level instance at start-up:
    [SessionMemoryService(max_history_per_session=10, session_timeout_hours=24)]. *)
Definition session_memory_service_init : SessionMemoryService :=
  {| sessions := ∅; max_history_per_session := 10;
     session_timeout := timedelta_hours 24 |}.

Module SessionMemoryService.

(** [self.sessions[key]] *)
Definition getitem (key : string) : M ConversationSession :=
  self ← memory;
  match sessions self !! key with
  | Some session => mret session
  | None => raise (KeyError key)
  end.

(** [self.sessions[key] = session]; also the write of an object mutated
    in place back under the key it is stored at. *)
Definition setitem (key : string) (session : ConversationSession) : M unit :=
  modify (set_memory (λ self, set_sessions (<[key := session]> (sessions self)) self)).

(** [session_id is None or session_id not in self.sessions] is false:
    the key the session is stored under. *)
Definition known (self : SessionMemoryService) (session_id : option string)
    : option string :=
  match session_id with
  | None => None
  | Some k => if bool_decide (is_Some (sessions self !! k)) then Some k else None
  end.

Definition create_session : M string :=
  session_id ← str_uuid4;
  self ← memory;
  session ← ConversationSession.init session_id (max_history_per_session self);
  setitem session_id session;;
  mret session_id.

(** [get_session] returns a session object of the registry; the object is
    denoted by the key it is stored under. *)
Definition get_session (session_id : option string) : M string :=
  self ← memory;
  match known self session_id with
  | None =>
      new_session_id ← create_session;
      _ ← getitem new_session_id;
      mret new_session_id
  | Some k =>
      session ← getitem k;
      now ← datetime_now;
      (if session_timeout self <? now - last_access session
       then setitem k (ConversationSession.clear session)
       else mret tt);;
      mret k
  end.

Definition add_message (session_id : option string) (role content : string)
    : M string :=
  session ← get_session session_id;
  self ← getitem session;
  self ← ConversationSession.add_message self role content;
  setitem session self;;
  mret (session_id_of self).

Definition get_conversation_history (session_id : option string)
    (last_n : option Z) : M (list Message) :=
  self ← memory;
  match known self session_id with
  | None => mret []
  | Some k =>
      session ← getitem k;
      mret (ConversationSession.get_history session last_n)
  end.

Definition format_message (msg : Message) : string :=
  PyStr.capitalize (role msg) +:+ ": " +:+ content msg.

Definition get_conversation_context (session_id : option string)
    (last_n : option Z) : M string :=
  messages ← get_conversation_history session_id last_n;
  match messages with
  | [] => mret EmptyString
  | _ =>
      mret (Py.join PyStr.newline
              ("Previous conversation:" :: map format_message messages))
  end.

Definition clear_session (session_id : string) : M unit :=
  self ← memory;
  match sessions self !! session_id with
  | Some session => setitem session_id (ConversationSession.clear session)
  | None => mret tt
  end.

Definition delete_session (session_id : string) : M unit :=
  modify (set_memory (λ self, set_sessions (delete session_id (sessions self)) self)).

Definition expired (timeout now : Z) (session : ConversationSession) : Prop :=
  timeout < now - last_access session.

Global Instance expired_dec timeout now session : Decision (expired timeout now session).
Proof. unfold expired. apply _. Defined.

Definition cleanup_expired_sessions : M Z :=
  now ← datetime_now;
  self ← memory;
  let gone := filter (λ kv, expired (session_timeout self) now kv.2) (sessions self) in
  modify (set_memory (set_sessions
    (filter (λ kv, ¬ expired (session_timeout self) now kv.2) (sessions self))));;
  mret (Z.of_nat (size gone)).

Definition get_active_sessions_count : M Z :=
  self ← memory;
  mret (Z.of_nat (size (sessions self))).

End SessionMemoryService.

(** ** [api/routes.py]: [chat] *)

Definition fallback_answer : string :=
  "I don't have enough information to answer this question. Please index some documents first.".

(** [f"{result['source']} (chunk {result['chunk_id']})"] *)
Definition source_label (result : SearchResult) : string :=
  source result +:+ " (chunk " +:+ pretty (chunk_id result) +:+ ")".

(** One iteration of [for result in search_results]; the state is
    [(context_parts, sources)]. *)
Definition collect_step (acc : list string * list string) (result : SearchResult)
    : list string * list string :=
  let '(context_parts, sources) := acc in
  let context_parts := context_parts ++ [text result] in
  let source := source_label result in
  if bool_decide (source ∈ sources)
  then (context_parts, sources)
  else (context_parts, sources ++ [source]).

Definition collect (search_results : list SearchResult) : list string * list string :=
  fold_left collect_step search_results ([], []).

(** [context = "\n\n".join(context_parts)] *)
Definition context_of (search_results : list SearchResult) : string :=
  Py.join (PyStr.newline +:+ PyStr.newline) (collect search_results).1.

Definition sources_of (search_results : list SearchResult) : list string :=
  (collect search_results).2.

Definition call_generate_embeddings (texts : list string) : M (list (list float)) :=
  modify (record_call (GenerateEmbeddings texts));;
  f ← gets generate_embeddings;
  lift (f texts).

Definition call_search (query_embedding : list float) (top_k : option Z)
    : M (list SearchResult) :=
  modify (record_call (Search query_embedding top_k));;
  f ← gets search;
  lift (f query_embedding top_k).

Definition call_generate_response (query context : string)
    (conversation_history : option string) : M string :=
  modify (record_call (GenerateResponse query context conversation_history));;
  f ← gets generate_response;
  lift (f query context conversation_history).

(** [l[0]] *)
Definition first {A} (l : list A) : M A :=
  match l with
  | x :: _ => mret x
  | [] => raise (IndexError "list index out of range")
  end.

Definition chat_body (request : ChatRequest.t) : M ChatResponse.t :=
  embeddings ← call_generate_embeddings [ChatRequest.query request];
  query_embedding ← first embeddings;
  search_results ← call_search query_embedding (ChatRequest.top_k request);
  match search_results with
  | [] =>
      let answer := fallback_answer in
      session_id ← SessionMemoryService.add_message
                     (ChatRequest.session_id request) "user" (ChatRequest.query request);
      _ ← SessionMemoryService.add_message (Some session_id) "assistant" answer;
      mret {| ChatResponse.answer := answer; ChatResponse.sources := [];
              ChatResponse.session_id := session_id |}
  | _ =>
      let context := context_of search_results in
      let sources := sources_of search_results in
      conversation_history ← SessionMemoryService.get_conversation_context
                               (ChatRequest.session_id request) (Some 5);
      answer ← call_generate_response (ChatRequest.query request) context
                 (if Py.truthy conversation_history
                  then Some conversation_history else None);
      session_id ← SessionMemoryService.add_message
                     (ChatRequest.session_id request) "user" (ChatRequest.query request);
      _ ← SessionMemoryService.add_message (Some session_id) "assistant" answer;
      mret {| ChatResponse.answer := answer; ChatResponse.sources := sources;
              ChatResponse.session_id := session_id |}
  end.

(** [except Exception as e: raise HTTPException(status_code=500, detail=str(e))] *)
Definition chat (request : ChatRequest.t) : M ChatResponse.t :=
  try_except (chat_body request) (λ e, raise (HTTPException 500 (exn_str e))).

(** ** More built-ins: [str.lower], [str.endswith] *)

Module PyText.

(** [c.lower()] for a code point below 256: the ASCII capitals and the
    capitals of the Latin-1 block move up by 32. *)
Definition lower_char (c : Ascii.ascii) : Ascii.ascii :=
  let n := Ascii.N_of_ascii c in
  if ((65 <=? n) && (n <=? 90) || (192 <=? n) && (n <=? 214)
      || (216 <=? n) && (n <=? 222))%N
  then Ascii.ascii_of_N (n + 32) else c.

(** [s.lower()] *)
Fixpoint lower (s : string) : string :=
  match s with
  | EmptyString => EmptyString
  | String c s' => String (lower_char c) (lower s')
  end.

(** [s.endswith(suffix)] *)
Fixpoint endswith (s suffix : string) : bool :=
  if String.eqb s suffix then true
  else match s with
       | EmptyString => false
       | String _ s' => endswith s' suffix
       end.

End PyText.

(** ** [services/document.py]: file types and text extraction *)

(** [bytes] *)
Definition bytes : Type := list Byte.byte.

Definition supported_extensions : list string := [".pdf"; ".txt"].

(** [any(filename.lower().endswith(ext) for ext in supported_extensions)] *)
Definition validate_file_type (filename : string) : bool :=
  existsb (λ ext, PyText.endswith (PyText.lower filename) ext) supported_extensions.

(** ** [services/vectordb.py]: [store_embeddings] *)

Module Payload.
Record t := {
  text : string;
  source : string;
  chunk_id : Z
}.
End Payload.

Module PointStruct.
Record t := {
  id : string;
  vector : list float;
  payload : Payload.t
}.
End PointStruct.

(** The service object: [client] is [None] until [connect()]. A connected
    client is known by what [upsert] answers for a list of points. *)
Record VectorDBService := {
  client : option (list PointStruct.t → result unit)
}.

Module VectorDBService.

(** The loop [for i, (chunk, embedding) in enumerate(zip(chunks, embeddings))];
    [i] is the index of the next pair and [points] the list built so far. *)
Fixpoint make_points (filename : string) (i : Z)
    (pairs : list (string * list float)) (points : list PointStruct.t)
    : M (list PointStruct.t) :=
  match pairs with
  | [] => mret points
  | (chunk, embedding) :: rest =>
      point_id ← str_uuid4;
      make_points filename (i + 1) rest
        (points ++ [{| PointStruct.id := point_id;
                       PointStruct.vector := embedding;
                       PointStruct.payload :=
                         {| Payload.text := chunk; Payload.source := filename;
                            Payload.chunk_id := i |} |}])
  end.

Definition store_embeddings (self : VectorDBService)
    (embeddings : list (list float)) (chunks : list string) (filename : string)
    : M Z :=
  match client self with
  | None => raise (RuntimeError "Not connected to Qdrant. Call connect() first.")
  | Some upsert =>
      points ← make_points filename 0 (zip chunks embeddings) [];
      lift (upsert points);;
      mret (Py.len points)
  end.

End VectorDBService.

(** ** [api/routes.py]: [index_document] and [clear_session] *)

Module UploadFile.
Record t := {
  filename : string;
  content : bytes
}.
End UploadFile.

Module IndexResponse.
Record t := {
  status : string;
  filename : string;
  chunks_indexed : Z;
  message : string
}.
End IndexResponse.

(** What the index route uses besides the world of a request: the settings
    object, the PDF reader (the text of each page of a file, or the
    exception raised while reading it), the UTF-8 codec and the vector
    database service. *)
Record IndexEnv := {
  document_settings : Settings;
  pdf_pages : bytes → result (list string);
  decode_utf8 : bytes → result string;
  vectordb_service : VectorDBService
}.

(** [text = ""; for page in pdf_reader.pages: text += page.extract_text()];
    an exception is logged and raised again. *)
Definition extract_text_from_pdf (env : IndexEnv) (file_content : bytes) : M string :=
  pages ← lift (pdf_pages env file_content);
  mret (fold_left (λ text page, text +:+ page) pages EmptyString).

(** [file_content.decode('utf-8')] *)
Definition extract_text_from_txt (env : IndexEnv) (file_content : bytes) : M string :=
  lift (decode_utf8 env file_content).

(** [except HTTPException: raise] followed by
    [except Exception as e: raise HTTPException(status_code=500, detail=str(e))] *)
Definition try_except_http {A} (body : M A) : M A := λ w,
  match body w with
  | (Return a, w') => (Return a, w')
  | (Raise (HTTPException status_code detail), w') =>
      (Raise (HTTPException status_code detail), w')
  | (Raise e, w') => (Raise (HTTPException 500 (exn_str e)), w')
  end.

Definition index_document_body (env : IndexEnv) (file : UploadFile.t)
    : M IndexResponse.t :=
  if negb (validate_file_type (UploadFile.filename file))
  then raise (HTTPException 400 "Only PDF and TXT files are supported")
  else
    let content := UploadFile.content file in
    text ← (if PyText.endswith (UploadFile.filename file) ".pdf"
            then extract_text_from_pdf env content
            else extract_text_from_txt env content);
    if negb (Py.truthy (Py.strip text))
    then raise (HTTPException 400 "No text content found in file")
    else
      chunks ← lift (DocumentService.chunk_text (document_settings env) text None None);
      embeddings ← call_generate_embeddings chunks;
      num_stored ← VectorDBService.store_embeddings (vectordb_service env)
                     embeddings chunks (UploadFile.filename file);
      mret {| IndexResponse.status := "success";
              IndexResponse.filename := UploadFile.filename file;
              IndexResponse.chunks_indexed := num_stored;
              IndexResponse.message :=
                "Successfully indexed " +:+ pretty num_stored +:+ " chunks" |}.

Definition index_document (env : IndexEnv) (file : UploadFile.t)
    : M IndexResponse.t :=
  try_except_http (index_document_body env file).

Module StatusDict.
Record t := {
  status : string;
  message : string
}.
End StatusDict.

Module Routes.

(** [DELETE /session/{session_id}] *)
Definition clear_session (session_id : string) : M StatusDict.t :=
  try_except
    (SessionMemoryService.clear_session session_id;;
     mret {| StatusDict.status := "success";
             StatusDict.message := "Session " +:+ session_id +:+ " cleared" |})
    (λ e, raise (HTTPException 500 (exn_str e))).

End Routes.

(** * Vocabulary of the statements *)

(** No character of [s] is whitespace. *)
Fixpoint solid (s : string) : bool :=
  match s with
  | EmptyString => true
  | String c s' => negb (Py.isspace c) && solid s'
  end.

(** What [split] produces: non-empty, whitespace-free strings. *)
Definition word (s : string) : Prop := Py.truthy s = true ∧ solid s = true.

(** Every session is stored under its own identifier. *)
Definition registry_wf (self : SessionMemoryService) : Prop :=
  map_Forall (λ k s, session_id s = k) (sessions self).

(** The oracles, the collaborators and the configuration of the store are
    the same in both worlds. *)
Definition same_env (w w' : World) : Prop :=
  clock w' = clock w ∧ uuid4 w' = uuid4 w
  ∧ generate_embeddings w' = generate_embeddings w
  ∧ search w' = search w
  ∧ generate_response w' = generate_response w
  ∧ max_history_per_session (session_memory_service w')
    = max_history_per_session (session_memory_service w)
  ∧ session_timeout (session_memory_service w')
    = session_timeout (session_memory_service w).

(** The history an access with [requested] finds in world [w]: empty for a
    new session and for one whose inactivity window has elapsed. *)
Definition resolved_history (w : World) (requested : option string) : list Message :=
  let self := session_memory_service w in
  match SessionMemoryService.known self requested with
  | None => []
  | Some k =>
      match sessions self !! k with
      | None => []
      | Some s =>
          if session_timeout self <? clock w (clock_reads w) - last_access s
          then [] else messages s
      end
  end.

Definition resolved_max_history (w : World) (requested : option string) : Z :=
  let self := session_memory_service w in
  match SessionMemoryService.known self requested with
  | None => max_history_per_session self
  | Some k =>
      match sessions self !! k with
      | None => max_history_per_session self
      | Some s => max_history s
      end
  end.

(** [ConversationSession.add_message] called once per [(role, content)]
    pair, in order, on the same session object. *)
Fixpoint add_all (self : ConversationSession) (turns : list (string * string))
    : M ConversationSession :=
  match turns with
  | [] => mret self
  | (role, content) :: rest =>
      self ← ConversationSession.add_message self role content;
      add_all self rest
  end.

Definition turn_of (m : Message) : string * string := (role m, content m).

(** The last [k] elements of [l]. *)
Definition last_n {A} (k : nat) (l : list A) : list A := drop (length l - k) l.

Definition fresh_session (w : World) : ConversationSession :=
  {| session_id := uuid4 w (uuid4_draws w); messages := [];
     max_history := max_history_per_session (session_memory_service w);
     created_at := clock w (clock_reads w);
     last_access := clock w (S (clock_reads w)) |}.

(** The session object after [ConversationSession.add_message], with the
    two instants read by the call. *)
Definition appended (s : ConversationSession) (role content : string)
    (t_message t_access : Z) : ConversationSession :=
  {| session_id := session_id s;
     messages := ConversationSession.keep_last (max_history s)
       (messages s ++ [{| role := role; content := content;
                          timestamp := t_message |}]);
     max_history := max_history s; created_at := created_at s;
     last_access := t_access |}.

(** [add_message] after [get_session] has returned the object stored
    under [k]. *)
Definition add_message_on (k : string) (role content : string) : M string :=
  self ← SessionMemoryService.getitem k;
  self ← ConversationSession.add_message self role content;
  SessionMemoryService.setitem k self;;
  mret (session_id_of self).

(** Labels in first-seen order, each once. *)
Fixpoint first_seen (l : list string) : list string :=
  match l with
  | [] => []
  | x :: l' => x :: filter (λ y, y ≠ x) (first_seen l')
  end.

(** The text [get_conversation_context] returns for the store [self]. *)
Definition conversation_context (self : SessionMemoryService)
    (requested : option string) (last_n : option Z) : string :=
  match SessionMemoryService.known self requested with
  | None => EmptyString
  | Some k =>
      match sessions self !! k with
      | None => EmptyString
      | Some s =>
          match ConversationSession.get_history s last_n with
          | [] => EmptyString
          | msgs => Py.join PyStr.newline
                      ("Previous conversation:"
                       :: map SessionMemoryService.format_message msgs)
          end
      end
  end.

(** [conversation_history if conversation_history else None] *)
Definition history_argument (conversation_history : string) : option string :=
  if Py.truthy conversation_history then Some conversation_history else None.

(** The world after the embedding and the search call of a request. *)
Definition searched (request : ChatRequest.t) (query_embedding : list float)
    (w : World) : World :=
  record_call (Search query_embedding (ChatRequest.top_k request))
    (record_call (GenerateEmbeddings [ChatRequest.query request]) w).

(** ** Concrete worlds for the instances *)

Definition demo_session : ConversationSession :=
  {| session_id := "s1";
     messages := [{| role := "user"; content := "hello"; timestamp := 0 |}];
     max_history := 10; created_at := 0; last_access := 0 |}.

(** A world whose store holds [store], whose clock is [clock], whose index
    answers every search with [results] and whose model answers [reply]. *)
Definition demo_world (store : gmap string ConversationSession)
    (clock : nat → Z) (results : list SearchResult) (reply : result string)
    : World :=
  {| session_memory_service := set_sessions store session_memory_service_init;
     clock := clock; clock_reads := 0;
     uuid4 := λ n, "uuid-" +:+ pretty n; uuid4_draws := 0;
     generate_embeddings := λ texts, Return (map (λ _, [{| float_bits := 0 |}]) texts);
     search := λ _ _, Return results;
     generate_response := λ _ _ _, reply;
     calls := [] |}.



Definition demo_request (requested : option string) : ChatRequest.t :=
  {| ChatRequest.query := "what is a chunk?"; ChatRequest.top_k := Some 3;
     ChatRequest.session_id := requested |}.

Definition demo_result (source : string) (chunk_id : Z) (text : string)
    : SearchResult :=
  {| text := text; source := source; chunk_id := chunk_id;
     score := {| float_bits := 0 |} |}.

Definition twelve_turns : list (string * string) :=
  [("user", "m1"); ("assistant", "m2"); ("user", "m3"); ("assistant", "m4");
   ("user", "m5"); ("assistant", "m6"); ("user", "m7"); ("assistant", "m8");
   ("user", "m9"); ("assistant", "m10"); ("user", "m11"); ("assistant", "m12")].

Definition float_zero : float := {| float_bits := 0 |}.

(** ** Vocabulary of the further properties *)

(** Every character of [s] is whitespace. *)
Fixpoint blank (s : string) : bool :=
  match s with
  | EmptyString => true
  | String c s' => Py.isspace c && blank s'
  end.

(** The [k]-th window of [chunk_size] words, for windows [step] words apart. *)
Definition window_at (words : list string) (chunk_size step : nat) (k : nat)
    : list string :=
  take chunk_size (drop (k * step) words).

(** The session [add_message] appends to once [get_session] has looked at
    the stored session [s] at the instant [now]: [s] itself, or [s] emptied
    when its inactivity window has elapsed. *)
Definition after_expiry_check (timeout now : Z) (s : ConversationSession)
    : ConversationSession :=
  if timeout <? now - last_access s then ConversationSession.clear s else s.

(** The history text [chat] builds for the store [self]: the stored
    messages are read as they are, without an expiry check. *)
Definition stored_history (self : SessionMemoryService)
    (requested : option string) : list Message :=
  match SessionMemoryService.known self requested with
  | None => []
  | Some k =>
      match sessions self !! k with
      | None => []
      | Some s => drop (length (messages s) - 5) (messages s)
      end
  end.

(** The point [store_embeddings] builds in world [w] for the [k]-th pair
    of a chunk and its embedding, counting chunk identifiers from [i]. *)
Definition point_of (w : World) (filename : string) (i : Z) (k : nat)
    (pair : string * list float) : PointStruct.t :=
  {| PointStruct.id := uuid4 w (uuid4_draws w + k);
     PointStruct.vector := pair.2;
     PointStruct.payload :=
       {| Payload.text := pair.1; Payload.source := filename;
          Payload.chunk_id := i + Z.of_nat k |} |}.

Definition points_of (w : World) (filename : string) (chunks : list string)
    (embeddings : list (list float)) : list PointStruct.t :=
  imap (point_of w filename 0) (zip chunks embeddings).

(** The world after [n] identifiers have been drawn. *)
Definition drawn (n : nat) (w : World) : World := Nat.iter n draw w.

(** The text the index route extracts from an upload: the pages of the PDF
    reader, concatenated, when the name ends with [.pdf] as it is written,
    the decoded bytes otherwise. *)
Definition extracted_text (env : IndexEnv) (file : UploadFile.t) : result string :=
  if PyText.endswith (UploadFile.filename file) ".pdf"
  then match pdf_pages env (UploadFile.content file) with
       | Return pages => Return (fold_left (λ text page, text +:+ page) pages EmptyString)
       | Raise e => Raise e
       end
  else decode_utf8 env (UploadFile.content file).

(** The response of a successful index request. *)
Definition indexed (file : UploadFile.t) (num_stored : Z) : IndexResponse.t :=
  {| IndexResponse.status := "success";
     IndexResponse.filename := UploadFile.filename file;
     IndexResponse.chunks_indexed := num_stored;
     IndexResponse.message :=
       "Successfully indexed " +:+ pretty num_stored +:+ " chunks" |}.

(** [env] with another PDF reader. *)
Definition with_pdf_pages (pages : bytes → result (list string)) (env : IndexEnv)
    : IndexEnv :=
  {| document_settings := document_settings env; pdf_pages := pages;
     decode_utf8 := decode_utf8 env; vectordb_service := vectordb_service env |}.

(** [w] with other collaborators: what the embedding model, the index and
    the language model answer may change between two requests. *)
Definition set_collaborators
    (embed : list string → result (list (list float)))
    (find : list float → option Z → result (list SearchResult))
    (generate : string → string → option string → result string)
    (w : World) : World :=
  {| session_memory_service := session_memory_service w;
     clock := clock w; clock_reads := clock_reads w;
     uuid4 := uuid4 w; uuid4_draws := uuid4_draws w;
     generate_embeddings := embed; search := find;
     generate_response := generate; calls := calls w |}.

(** What can happen to the running service: a request to one of the routes
    that reach the store, the periodic sweep, a deletion, or a change of
    what the collaborators answer. *)
Inductive Operation : Type :=
  | DoChat (request : ChatRequest.t)
  | DoIndex (env : IndexEnv) (file : UploadFile.t)
  | DoClearSession (session_id : string)
  | DoDeleteSession (session_id : string)
  | DoCleanup
  | DoCollaborators
      (embed : list string → result (list (list float)))
      (find : list float → option Z → result (list SearchResult))
      (generate : string → string → option string → result string).

Definition perform (op : Operation) (w : World) : World :=
  match op with
  | DoChat request => (chat request w).2
  | DoIndex env file => (index_document env file w).2
  | DoClearSession session_id => (Routes.clear_session session_id w).2
  | DoDeleteSession session_id => (SessionMemoryService.delete_session session_id w).2
  | DoCleanup => (SessionMemoryService.cleanup_expired_sessions w).2
  | DoCollaborators embed find generate => set_collaborators embed find generate w
  end.

Definition perform_all (ops : list Operation) (w : World) : World :=
  fold_left (λ w op, perform op w) ops w.

(** Every session is stored under its own identifier, has the bound of the
    service and holds no more messages than that. *)
Definition store_inv (self : SessionMemoryService) : Prop :=
  map_Forall (λ k s, session_id s = k
                     ∧ max_history s = max_history_per_session self
                     ∧ Py.len (messages s) ≤ max_history s)
    (sessions self).

(** From [w] to [w']: the configuration of the store is the same and the
    invariant holds. *)
Definition kept (w w' : World) : Prop :=
  max_history_per_session (session_memory_service w')
  = max_history_per_session (session_memory_service w)
  ∧ session_timeout (session_memory_service w')
    = session_timeout (session_memory_service w)
  ∧ store_inv (session_memory_service w').

(** An index environment with the settings [cfg], a PDF reader that finds
    two pages, a decoder that answers [decoded] and the client [upsert]. *)
Definition demo_env (cfg : Settings) (decoded : result string)
    (upsert : option (list PointStruct.t → result unit)) : IndexEnv :=
  {| document_settings := cfg;
     pdf_pages := λ _, Return ["page one "; "page two"];
     decode_utf8 := λ _, decoded;
     vectordb_service := {| client := upsert |} |}.

Definition demo_file (filename : string) : UploadFile.t :=
  {| UploadFile.filename := filename; UploadFile.content := [] |}.

Definition not_loaded : exn :=
  RuntimeError "Model not loaded. Call load_model() first.".

(** * Properties *)

(** Unfold the monad and the primitive reads and writes, nothing else. *)
Ltac run :=
  cbv beta iota zeta delta
    [mbind M_bind mret M_ret memory gets modify raise lift try_except
     datetime_now str_uuid4 SessionMemoryService.getitem
     SessionMemoryService.setitem Message_init
     ConversationSession.init ConversationSession.add_message
     call_generate_embeddings call_search call_generate_response first].

#[local] Arguments SessionMemoryService.known : simpl never.


(** ** Built-ins *)

Section PyFacts.

Lemma append_cons c s t : String c s +:+ t = String c (s +:+ t).
Proof. reflexivity. Qed.

Lemma append_nil s : EmptyString +:+ s = s.
Proof. reflexivity. Qed.

Lemma solid_snoc w c :
  solid w = true → Py.isspace c = false → solid (w +:+ String c EmptyString) = true.
Proof.
  induction w as [|a w IH]; simpl; intros Hw Hc.
  - by rewrite Hc.
  - apply andb_prop in Hw as [-> Hw]. simpl. by apply IH.
Qed.

Lemma truthy_snoc w c : Py.truthy (w +:+ String c EmptyString) = true.
Proof. by destruct w. Qed.

Lemma split_from_words s : ∀ w,
  solid w = true → Forall word (Py.split_from w s).
Proof.
  induction s as [|c s IH]; intros w Hw; simpl.
  - destruct (Py.truthy w) eqn:Ht; [|constructor].
    constructor; [by split | constructor].
  - destruct (Py.isspace c) eqn:Hc.
    + destruct (Py.truthy w) eqn:Ht.
      * constructor; [by split | by apply IH].
      * by apply IH.
    + apply IH. by apply solid_snoc.
Qed.

Lemma split_words s : Forall word (Py.split s).
Proof. by apply split_from_words. Qed.

Lemma rstrip_solid_head c s :
  Py.isspace c = false → Py.truthy (Py.rstrip (String c s)) = true.
Proof. intros Hc. simpl. destruct (Py.rstrip s); [by rewrite Hc | done]. Qed.

Lemma strip_word_head x s :
  word x → Py.truthy (Py.strip (x +:+ s)) = true.
Proof.
  intros [Ht Hs]. destruct x as [|c x]; [done|].
  simpl in Hs. apply andb_prop in Hs as [Hc _].
  apply negb_true_iff in Hc.
  unfold Py.strip. simpl. rewrite Hc. by apply rstrip_solid_head.
Qed.

Lemma string_app_nil_r s : s +:+ EmptyString = s.
Proof. induction s as [|c s IH]; [done|]. by rewrite append_cons, IH. Qed.

(** A joined window is kept by [if chunk.strip()] exactly when the window
    has a word in it. *)
Lemma strip_join_truthy sep ws :
  Forall word ws → Py.truthy (Py.strip (Py.join sep ws)) = bool_decide (ws ≠ []).
Proof.
  intros Hws. destruct Hws as [|x ws Hx Hws]; [done|].
  rewrite bool_decide_true by done.
  destruct ws as [|y ws].
  - simpl. rewrite <- (string_app_nil_r x). by apply strip_word_head.
  - change (Py.join sep (x :: y :: ws))
      with (x +:+ sep +:+ Py.join sep (y :: ws)).
    by apply strip_word_head.
Qed.

Lemma len_nonneg {A} (l : list A) : 0 ≤ Py.len l.
Proof. unfold Py.len. lia. Qed.

(** A slice with non-negative bounds [i] and [i + k]. *)
Lemma slice_window {A} (l : list A) i k :
  0 ≤ i → 0 ≤ k →
  Py.slice (Some i) (Some (i + k)) l = take (Z.to_nat k) (drop (Z.to_nat i) l).
Proof.
  intros Hi Hk. unfold Py.slice, Py.slice_index, Py.len.
  destruct (Z.ltb_spec i 0); [lia|].
  destruct (Z.ltb_spec (i + k) 0); [lia|].
  set (n := length l).
  destruct (Z_le_gt_dec i (Z.of_nat n)).
  - rewrite (Z.min_l i) by lia.
    destruct (Z_le_gt_dec (i + k) (Z.of_nat n)).
    + rewrite Z.min_l by lia. f_equal. lia.
    + rewrite Z.min_r by lia.
      rewrite !take_ge; [done | rewrite length_drop; lia | rewrite length_drop; lia].
  - rewrite !Z.min_r by lia.
    rewrite (drop_ge l (Z.to_nat i)) by lia.
    rewrite drop_ge by lia. by rewrite !take_nil.
Qed.

(** [l[-0:]] is the whole list. *)
Lemma slice_minus_zero {A} (l : list A) : Py.slice (Some (- 0)) None l = l.
Proof.
  unfold Py.slice, Py.slice_index, Py.len. simpl.
  rewrite Z.min_l by lia. simpl. rewrite Z.sub_0_r, Nat2Z.id.
  by rewrite take_ge.
Qed.

(** [l[-k:]] for [1 ≤ k]: the last [k] elements. *)
Lemma slice_last {A} (l : list A) k :
  0 < k →
  Py.slice (Some (- k)) None l = drop (length l - Z.to_nat k) l.
Proof.
  intros Hk. unfold Py.slice, Py.slice_index, Py.len.
  destruct (Z.ltb_spec (- k) 0); [|lia].
  destruct (Z_le_gt_dec k (Z.of_nat (length l))).
  - rewrite Z.max_l by lia.
    replace (Z.to_nat (- k + Z.of_nat (length l))) with (length l - Z.to_nat k)%nat by lia.
    apply take_ge. rewrite length_drop. lia.
  - rewrite Z.max_r by lia.
    replace (length l - Z.to_nat k)%nat with 0%nat by lia.
    simpl. rewrite Z.sub_0_r, Nat2Z.id. by apply take_ge.
Qed.

(** [l[k:]] for [0 ≤ k]: what a negative [max_history = -k] keeps. *)
Lemma slice_from {A} (l : list A) k :
  0 ≤ k → Py.slice (Some k) None l = drop (Z.to_nat k) l.
Proof.
  intros Hk. unfold Py.slice, Py.slice_index, Py.len.
  destruct (Z.ltb_spec k 0); [lia|].
  destruct (Z_le_gt_dec k (Z.of_nat (length l))).
  - rewrite Z.min_l by lia. apply take_ge. rewrite length_drop. lia.
  - rewrite Z.min_r by lia. rewrite Z.sub_diag. simpl.
    symmetry. apply drop_ge. lia.
Qed.

(** [range(0, n, step)] for a positive step. *)
Lemma range_length_pos n step :
  0 ≤ n → 0 < step →
  Py.range_length 0 n step = Z.to_nat ((n + step - 1) / step).
Proof.
  intros Hn Hs. unfold Py.range_length.
  destruct (Z.ltb_spec 0 step); [|lia].
  destruct (Z.ltb_spec 0 n).
  - f_equal. replace (n + step - 1) with ((n - 0 - 1) + 1 * step) by lia.
    rewrite Z.div_add by lia. lia.
  - replace n with 0 by lia. simpl.
    rewrite Z.div_small by lia. done.
Qed.

Lemma range_offset_lt n step (k : nat) :
  0 ≤ n → 0 < step →
  (k < Z.to_nat ((n + step - 1) / step))%nat → Z.of_nat k * step < n.
Proof.
  intros Hn Hs Hk.
  assert (Hq : 0 ≤ (n + step - 1) / step) by (apply Z.div_pos; lia).
  assert (Hk' : Z.of_nat k + 1 ≤ (n + step - 1) / step) by lia.
  pose proof (Z.mul_div_le (n + step - 1) step Hs).
  nia.
Qed.

End PyFacts.

(** ** The chunker *)

Section Chunker.

Import DocumentService.

Lemma slice_words {A} (P : A → Prop) lo hi (l : list A) :
  Forall P l → Forall P (Py.slice lo hi l).
Proof. intros H. unfold Py.slice. by apply Forall_take, Forall_drop. Qed.

(** The loop of [chunk_text] appends, in order, the joined text of every
    window that has a word in it. *)
Lemma chunk_loop words chunk_size offsets : ∀ chunks,
  Forall word words →
  fold_left (chunk_step words chunk_size) offsets chunks
  = chunks ++ map (Py.join " ")
      (filter (λ w, w ≠ [])
         (map (λ i, Py.slice (Some i) (Some (i + chunk_size)) words) offsets)).
Proof.
  induction offsets as [|i offsets IH]; intros chunks Hw; simpl.
  - by rewrite app_nil_r.
  - rewrite IH by done. unfold chunk_step at 1.
    rewrite strip_join_truthy by (by apply slice_words).
    rewrite filter_cons. case_bool_decide as Hne.
    + case_decide; [|done]. simpl. by rewrite <- app_assoc.
    + by case_decide.
Qed.

Lemma filter_Forall_id {A} (P : A → Prop) `{∀ x, Decision (P x)} (l : list A) :
  Forall P l → filter P l = l.
Proof.
  induction 1 as [|x l Hx Hl IH]; [done|].
  rewrite filter_cons, decide_True by done. by rewrite IH.
Qed.

Lemma window_nonempty {A} (l : list A) (k i : nat) :
  (0 < k)%nat → (i < length l)%nat → take k (drop i l) ≠ [].
Proof.
  intros Hk Hi E. apply (f_equal length) in E.
  rewrite length_take, length_drop in E. simpl in E. lia.
Qed.

Lemma chunk_text_positive_step cfg text chunk_size overlap :
  overlap < chunk_size →
  chunk_text cfg text (Some chunk_size) (Some overlap)
  = Return (map (Py.join " ")
      (filter (λ w, w ≠ [])
         (map (λ i, Py.slice (Some i) (Some (i + chunk_size)) (Py.split text))
            (map (λ k : nat, Z.of_nat k * (chunk_size - overlap))
               (seq 0 (Z.to_nat ((Py.len (Py.split text) + (chunk_size - overlap) - 1)
                                 / (chunk_size - overlap)))))))).
Proof.
  intros Hlt. unfold chunk_text, Py.range.
  destruct (Z.eqb_spec (chunk_size - overlap) 0); [lia|].
  rewrite chunk_loop by apply split_words.
  rewrite range_length_pos by (apply len_nonneg || lia).
  done.
Qed.

(** C8, as the code has it: for a window length [0 ≤ chunk_size] and
    [overlap < chunk_size],
    [chunk_text] splits the text on whitespace and returns, in order, the
    single-space join of the windows of [chunk_size] words that start at
    the offsets [0, step, 2*step, ...] below the number of words
    ([step = chunk_size - overlap]), leaving out the windows without a
    word. Every offset lies inside the word list, every window has at most
    [chunk_size] words, and the offsets increase strictly. When
    [0 < chunk_size] no window is left out. With [chunk_size = 4] and
    [overlap = 1], a text of six words gives exactly the two chunks
    [words[0:4]] and [words[3:6]]. The result is a function of the
    arguments alone. *)
Theorem chunk_text_windows cfg text chunk_size overlap :
  0 ≤ chunk_size → overlap < chunk_size →
  let words := Py.split text in
  let step := chunk_size - overlap in
  let count := Z.to_nat ((Py.len words + step - 1) / step) in
  let offsets := map (λ k : nat, Z.of_nat k * step) (seq 0 count) in
  let window (i : Z) := take (Z.to_nat chunk_size) (drop (Z.to_nat i) words) in
  chunk_text cfg text (Some chunk_size) (Some overlap)
    = Return (map (Py.join " ") (filter (λ w, w ≠ []) (map window offsets)))
  ∧ Forall word words
  ∧ (∀ i, i ∈ offsets → 0 ≤ i < Py.len words ∧ Py.len (window i) ≤ chunk_size)
  ∧ (∀ (j k : nat) i i', (j < k)%nat →
       offsets !! j = Some i → offsets !! k = Some i' → i < i')
  ∧ (0 < chunk_size →
       chunk_text cfg text (Some chunk_size) (Some overlap)
         = Return (map (λ i, Py.join " " (window i)) offsets))
  ∧ (chunk_size = 4 → overlap = 1 → ∀ w0 w1 w2 w3 w4 w5,
       words = [w0; w1; w2; w3; w4; w5] →
       chunk_text cfg text (Some chunk_size) (Some overlap)
         = Return [Py.join " " [w0; w1; w2; w3]; Py.join " " [w3; w4; w5]]).
Proof.
  intros Hcs Hov words step count offsets window.
  assert (Hstep : 0 < step) by (unfold step; lia).
  assert (Hoff : ∀ i, i ∈ offsets → 0 ≤ i < Py.len words).
  { intros i Hi. apply list_elem_of_fmap in Hi as (k & -> & Hk).
    apply elem_of_seq in Hk. split; [nia|].
    apply range_offset_lt; [apply len_nonneg | done | lia]. }
  assert (Hrun : chunk_text cfg text (Some chunk_size) (Some overlap)
    = Return (map (Py.join " ") (filter (λ w, w ≠ []) (map window offsets)))).
  { rewrite chunk_text_positive_step by done. do 3 f_equal.
    apply map_ext_in. intros i Hi. apply slice_window; [|done].
    apply list_elem_of_In, Hoff in Hi. lia. }
  assert (Hlen : ∀ i, Py.len (window i) ≤ chunk_size).
  { intros i. unfold window, Py.len. rewrite length_take. lia. }
  assert (Hkept : 0 < chunk_size →
    chunk_text cfg text (Some chunk_size) (Some overlap)
      = Return (map (λ i, Py.join " " (window i)) offsets)).
  { intros Hpos. rewrite Hrun. f_equal.
    rewrite filter_Forall_id; [by rewrite map_map|].
    apply Forall_map, Forall_forall. intros i Hi%Hoff.
    apply window_nonempty; unfold Py.len in Hi; lia. }
  repeat split; [done | apply split_words | by apply Hoff.. | apply Hlen | | done |].
  - intros j k i i' Hjk Hj Hk. unfold offsets in Hj, Hk.
    rewrite list_lookup_fmap in Hj, Hk.
    destruct (seq 0 count !! j) as [j'|] eqn:Ej; [|done].
    destruct (seq 0 count !! k) as [k'|] eqn:Ek; [|done].
    apply lookup_seq in Ej as [-> _]. apply lookup_seq in Ek as [-> _].
    simpl in Hj, Hk. injection Hj as <-. injection Hk as <-. nia.
  - intros -> -> w0 w1 w2 w3 w4 w5 Hwords.
    rewrite Hkept by lia. unfold offsets, count, step, window.
    unfold words in Hwords |- *. rewrite Hwords. reflexivity.
Qed.

(** C1, as the code has it: with [overlap = chunk_size] the step is zero
    and [chunk_text] fails, with the [ValueError] of [range]; with
    [chunk_size < overlap] the step is negative, the range is empty and
    [chunk_text] returns no chunk and no error. In both cases it
    terminates and emits no chunk twice. *)
Theorem chunk_text_nonpositive_step cfg text chunk_size overlap :
  chunk_size ≤ overlap →
  chunk_text cfg text (Some chunk_size) (Some overlap)
  = if decide (overlap = chunk_size)
    then Raise (ValueError "range() arg 3 must not be zero")
    else Return [].
Proof.
  intros Hle. unfold chunk_text, Py.range.
  case_decide as Heq.
  - subst. by rewrite Z.sub_diag.
  - destruct (Z.eqb_spec (chunk_size - overlap) 0); [lia|].
    unfold Py.range_length.
    destruct (Z.ltb_spec 0 (chunk_size - overlap)); [lia|].
    pose proof (len_nonneg (Py.split text)).
    by destruct (Z.ltb_spec (Py.len (Py.split text)) 0); [lia|].
Qed.

End Chunker.

(** ** The session store *)

Section Memory.

Import SessionMemoryService.

Lemma session_add_message_run self role content w :
  ConversationSession.add_message self role content w =
   (Return {| session_id := session_id self;
              messages := ConversationSession.keep_last (max_history self)
                 (messages self ++ [{| role := role; content := content;
                                       timestamp := clock w (clock_reads w) |}]);
              max_history := max_history self; created_at := created_at self;
              last_access := clock w (S (clock_reads w)) |}, tick (tick w)).
Proof. reflexivity. Qed.

Lemma known_Some self session_id k :
  known self session_id = Some k ↔
  session_id = Some k ∧ is_Some (sessions self !! k).
Proof.
  unfold known. destruct session_id as [k'|]; [|by split; [|intros [? _]]].
  destruct (bool_decide_reflect (is_Some (sessions self !! k'))) as [Hk|Hk].
  - split; [by intros [= ->] | by intros [[= ->] _]].
  - split; [done | intros [[= ->] Hk']; by destruct Hk].
Qed.

Lemma known_of_lookup self k s :
  sessions self !! k = Some s → known self (Some k) = Some k.
Proof. intros H. apply known_Some. eauto. Qed.

Lemma get_session_known_run w k s :
  sessions (session_memory_service w) !! k = Some s →
  get_session (Some k) w =
  (Return k,
   if session_timeout (session_memory_service w)
      <? clock w (clock_reads w) - last_access s
   then set_memory (λ self,
          set_sessions (<[k := ConversationSession.clear s]> (sessions self)) self)
          (tick w)
   else tick w).
Proof.
  intros Hk. unfold get_session. run.
  rewrite (known_of_lookup _ _ _ Hk), Hk.
  by destruct (_ <? _).
Qed.

Lemma get_session_new_run w session_id :
  known (session_memory_service w) session_id = None →
  get_session session_id w =
  (Return (uuid4 w (uuid4_draws w)),
   set_memory (λ self,
     set_sessions (<[uuid4 w (uuid4_draws w) := fresh_session w]> (sessions self)) self)
     (tick (tick (draw w)))).
Proof.
  intros Hk. unfold get_session, create_session. run.
  rewrite Hk. simpl. rewrite lookup_insert_eq. reflexivity.
Qed.

Lemma registry_wf_insert self self' k s :
  registry_wf self → session_id s = k →
  sessions self' = <[k := s]> (sessions self) →
  registry_wf self'.
Proof.
  intros Hwf Hid Heq k' s'. rewrite Heq, lookup_insert.
  case_decide; [naive_solver | apply Hwf].
Qed.

Lemma add_message_unfold session_id role content w :
  add_message session_id role content w =
  match get_session session_id w with
  | (Return k, w') => add_message_on k role content w'
  | (Raise e, w') => (Raise e, w')
  end.
Proof. reflexivity. Qed.

Lemma add_message_on_run w k s role content :
  sessions (session_memory_service w) !! k = Some s →
  add_message_on k role content w =
  (Return (session_id s),
   set_memory (λ self, set_sessions
     (<[k := appended s role content (clock w (clock_reads w))
               (clock w (S (clock_reads w)))]> (sessions self)) self)
     (tick (tick w))).
Proof. intros Hk. unfold add_message_on. run. rewrite Hk. reflexivity. Qed.

(** What one [add_message] call does to the store. *)
Lemma add_message_spec w requested role content :
  registry_wf (session_memory_service w) →
  ∃ sid s t w',
    add_message requested role content w = (Return sid, w')
    ∧ sessions (session_memory_service w')
      = <[sid := s]> (sessions (session_memory_service w))
    ∧ session_id s = sid
    ∧ max_history s = resolved_max_history w requested
    ∧ messages s = ConversationSession.keep_last (max_history s)
        (resolved_history w requested
         ++ [{| role := role; content := content; timestamp := t |}])
    ∧ last_access s = clock w (pred (clock_reads w'))
    ∧ (clock_reads w < clock_reads w')%nat
    ∧ same_env w w'
    ∧ calls w' = calls w
    ∧ (known (session_memory_service w) requested = Some sid
         ∧ uuid4_draws w' = uuid4_draws w
       ∨ known (session_memory_service w) requested = None
         ∧ sid = uuid4 w (uuid4_draws w)
         ∧ uuid4_draws w' = S (uuid4_draws w))
    ∧ registry_wf (session_memory_service w').
Proof.
  intros Hwf. rewrite add_message_unfold.
  unfold resolved_history, resolved_max_history.
  destruct (known (session_memory_service w) requested) as [k|] eqn:Hknown.
  - apply known_Some in Hknown as Hk. destruct Hk as [-> [s Hs]].
    rewrite (get_session_known_run _ _ _ Hs), Hs.
    pose proof (Hwf _ _ Hs) as Hid. simpl in Hid. subst k.
    destruct (_ <? _) eqn:Hexp.
    + erewrite add_message_on_run by (simpl; apply lookup_insert_eq).
      eexists _, _, _, _. split; [reflexivity|]. simpl.
      rewrite insert_insert_eq.
      split_and!; try done; try (simpl; lia); [by left|].
      eapply registry_wf_insert; [done | | simpl; reflexivity]. done.
    + erewrite add_message_on_run by (simpl; apply Hs).
      eexists _, _, _, _. split; [reflexivity|]. simpl.
      split_and!; try done; try (simpl; lia); [by left|].
      eapply registry_wf_insert; [done | | simpl; reflexivity]. done.
  - rewrite (get_session_new_run _ _ Hknown).
    erewrite add_message_on_run by (simpl; apply lookup_insert_eq).
    eexists _, _, _, _. split; [reflexivity|]. simpl.
    rewrite insert_insert_eq.
    split_and!; try done; try (simpl; lia); [by right|].
    eapply registry_wf_insert; [done | | simpl; reflexivity]. done.
Qed.

(** *** The history bound *)

Lemma keep_last_zero msgs : ConversationSession.keep_last 0 msgs = msgs.
Proof.
  unfold ConversationSession.keep_last.
  destruct (0 <? Py.len msgs); [apply slice_minus_zero | done].
Qed.

Lemma keep_last_pos max_history msgs :
  1 ≤ max_history →
  ConversationSession.keep_last max_history msgs
  = drop (length msgs - Z.to_nat max_history) msgs.
Proof.
  intros Hmh. unfold ConversationSession.keep_last, Py.len.
  destruct (Z.ltb_spec max_history (Z.of_nat (length msgs))).
  - apply slice_last. lia.
  - by replace (length msgs - Z.to_nat max_history)%nat with 0%nat by lia.
Qed.

Lemma keep_last_len max_history msgs :
  1 ≤ max_history →
  Py.len (ConversationSession.keep_last max_history msgs) ≤ max_history.
Proof.
  intros Hmh. rewrite keep_last_pos by done. unfold Py.len.
  rewrite length_drop. lia.
Qed.

Lemma keep_last_snoc max_history msgs m :
  1 ≤ max_history →
  ConversationSession.keep_last max_history
    (ConversationSession.keep_last max_history msgs ++ [m])
  = ConversationSession.keep_last max_history (msgs ++ [m]).
Proof.
  intros Hmh. rewrite !keep_last_pos by done.
  rewrite !length_app, length_drop. simpl.
  set (n := length msgs). set (k := Z.to_nat max_history).
  assert (1 ≤ k)%nat by lia.
  destruct (decide (n ≤ k)%nat).
  - replace (n - k)%nat with 0%nat by lia. simpl.
    by replace (n - 0 + 1 - k)%nat with (n + 1 - k)%nat by lia.
  - rewrite !drop_app_le by (rewrite ?length_drop; lia).
    rewrite drop_drop. do 2 f_equal. lia.
Qed.

(** [add_message] keeps the bound for every [max_history ≥ 1], whatever
    the session held before. *)
Lemma add_message_bound self role content w :
  1 ≤ max_history self →
  ∃ self', ConversationSession.add_message self role content w
           = (Return self', tick (tick w))
    ∧ max_history self' = max_history self
    ∧ Py.len (messages self') ≤ max_history self.
Proof.
  intros Hmh. rewrite session_add_message_run. eexists. split; [done|].
  simpl. split; [done|]. by apply keep_last_len.
Qed.

Lemma last_n_app {A} (k : nat) (a b : list A) :
  last_n k (last_n k a ++ b) = last_n k (a ++ b).
Proof.
  unfold last_n. rewrite !length_app, length_drop.
  destruct (decide (length a ≤ k)%nat).
  - replace (length a - k)%nat with 0%nat by lia. simpl.
    by rewrite Nat.sub_0_r.
  - destruct (decide (length b ≤ k)%nat).
    + rewrite !drop_app_le by (rewrite ?length_drop; lia).
      rewrite drop_drop. do 2 f_equal. lia.
    + rewrite !drop_app_ge by (rewrite ?length_drop; lia).
      rewrite length_drop. f_equal. lia.
Qed.

Lemma keep_last_turns max_history msgs :
  1 ≤ max_history →
  map turn_of (ConversationSession.keep_last max_history msgs)
  = last_n (Z.to_nat max_history) (map turn_of msgs).
Proof.
  intros Hmh. rewrite keep_last_pos by done. unfold last_n.
  by rewrite length_map, <- fmap_drop.
Qed.

(** Any sequence of appends on a session with [max_history ≥ 1]: the
    session holds the last [max_history] turns, oldest first, and the
    bound holds at the end of every call. *)
Lemma add_all_bound turns : ∀ self w,
  1 ≤ max_history self →
  ∃ self' w',
    add_all self turns w = (Return self', w')
    ∧ max_history self' = max_history self
    ∧ (turns ≠ [] → Py.len (messages self') ≤ max_history self)
    ∧ last_n (Z.to_nat (max_history self)) (map turn_of (messages self'))
      = last_n (Z.to_nat (max_history self)) (map turn_of (messages self) ++ turns).
Proof.
  induction turns as [|[role content] turns IH]; intros self w Hmh.
  - exists self, w. simpl. by rewrite app_nil_r.
  - change (add_all self ((role, content) :: turns) w)
      with (match ConversationSession.add_message self role content w with
            | (Return self1, w1) => add_all self1 turns w1
            | (Raise e, w1) => (Raise e, w1)
            end).
    rewrite session_add_message_run.
    edestruct (IH (appended self role content (clock w (clock_reads w))
                     (clock w (S (clock_reads w)))) (tick (tick w)))
      as (self' & w' & Hrun & Hmh' & Hlen & Hmsgs); [done|].
    exists self', w'. split; [exact Hrun|]. simpl in *.
    split; [done|]. split.
    + intros _. destruct turns as [|t turns]; [|by apply Hlen].
      injection Hrun as <- <-. simpl. by apply keep_last_len.
    + rewrite Hmsgs, keep_last_turns by done.
      rewrite last_n_app, map_app. simpl. by rewrite <- app_assoc.
Qed.

Lemma last_n_all {A} (k : nat) (l : list A) :
  (length l ≤ k)%nat → last_n k l = l.
Proof. intros H. unfold last_n. by replace (length l - k)%nat with 0%nat by lia. Qed.

Lemma last_n_snoc2 {A} (l : list A) (x y : A) (k : nat) :
  (2 ≤ k)%nat → last_n 2 (last_n k (l ++ [x; y])) = [x; y].
Proof.
  intros Hk.
  assert (H : last_n k (l ++ [x; y]) = drop (length l + 2 - k) l ++ [x; y]).
  { unfold last_n. rewrite length_app. simpl. apply drop_app_le. lia. }
  rewrite H. unfold last_n. rewrite length_app. simpl.
  replace (length (drop (length l + 2 - k) l) + 2 - 2)%nat
    with (length (drop (length l + 2 - k) l)) by lia.
  apply drop_app_length.
Qed.



Lemma add_all_turns turns self w :
  1 ≤ max_history self → turns ≠ [] →
  ∃ self' w',
    add_all self turns w = (Return self', w')
    ∧ Py.len (messages self') ≤ max_history self
    ∧ map turn_of (messages self')
      = last_n (Z.to_nat (max_history self)) (map turn_of (messages self) ++ turns).
Proof.
  intros Hmh Hne.
  destruct (add_all_bound turns self w Hmh) as (self' & w' & Hrun & _ & Hlen & Hmsgs).
  exists self', w'. split; [done|]. split; [by apply Hlen|].
  rewrite <- Hmsgs. symmetry. apply last_n_all.
  rewrite length_map. specialize (Hlen Hne). unfold Py.len in Hlen. lia.
Qed.

(** C2 at [max_history = 0]: the slice [messages[-0:]] keeps the whole
    list, so an append to a session whose bound is zero leaves one more
    message than before and the bound [len(messages) ≤ max_history] is
    broken after the call. *)
Theorem add_message_zero_bound_grows w sid msgs created accessed role content :
  let self := {| session_id := sid; messages := msgs; max_history := 0;
                 created_at := created; last_access := accessed |} in
  ∃ self' w',
    ConversationSession.add_message self role content w = (Return self', w')
    ∧ max_history self' = 0
    ∧ Py.len (messages self') = Py.len msgs + 1
    ∧ ¬ Py.len (messages self') ≤ max_history self'.
Proof.
  intros self. rewrite session_add_message_run. eexists _, _.
  split; [reflexivity|]. simpl. rewrite keep_last_zero.
  unfold Py.len. rewrite length_app. simpl. lia.
Qed.

(** C10: [get_history] with [last_n = 0] returns the whole message list,
    the same as with [last_n] absent, and so does
    [get_conversation_history]. *)
Theorem get_history_zero_is_all self w session_id :
  ConversationSession.get_history self (Some 0) = messages self
  ∧ ConversationSession.get_history self (Some 0)
    = ConversationSession.get_history self None
  ∧ get_conversation_history session_id (Some 0) w
    = get_conversation_history session_id None w.
Proof.
  assert (H0 : ∀ s, ConversationSession.get_history s (Some 0) = messages s).
  { intros s. apply slice_minus_zero. }
  split; [apply H0|]. split; [apply H0|].
  unfold get_conversation_history. run.
  destruct (known _ _); [|done].
  destruct (sessions _ !! _); [|done]. by rewrite H0.
Qed.

Lemma get_conversation_history_run w session_id last_n :
  get_conversation_history session_id last_n w =
  (match known (session_memory_service w) session_id with
   | None => Return []
   | Some k =>
       match sessions (session_memory_service w) !! k with
       | Some s => Return (ConversationSession.get_history s last_n)
       | None => Raise (KeyError k)
       end
   end, w).
Proof.
  unfold get_conversation_history. run.
  destruct (known _ _); [|done]. by destruct (sessions _ !! _).
Qed.

Lemma get_conversation_context_world w session_id last_n :
  (get_conversation_context session_id last_n w).2 = w.
Proof.
  unfold get_conversation_context. unfold mbind at 1, M_bind at 1.
  rewrite get_conversation_history_run.
  destruct (known _ _) as [k|]; [|done].
  destruct (sessions _ !! _) as [s|]; [|done].
  by destruct (ConversationSession.get_history s last_n).
Qed.

(** C3: a fetch of a session whose last access is older than the timeout
    empties its message list and keeps the session where it is: the same
    key, the same [session_id], no identifier drawn, every other session
    untouched. The history read next is empty, and the identifier still
    resolves to that entry. *)
Theorem get_session_expired_keeps_id w k s :
  sessions (session_memory_service w) !! k = Some s →
  session_timeout (session_memory_service w)
    < clock w (clock_reads w) - last_access s →
  ∃ w',
    get_session (Some k) w = (Return k, w')
    ∧ sessions (session_memory_service w')
      = <[k := ConversationSession.clear s]> (sessions (session_memory_service w))
    ∧ messages (ConversationSession.clear s) = []
    ∧ session_id (ConversationSession.clear s) = session_id s
    ∧ dom (sessions (session_memory_service w'))
      = dom (sessions (session_memory_service w))
    ∧ uuid4_draws w' = uuid4_draws w
    ∧ (get_conversation_history (Some k) None w').1 = Return []
    ∧ ∃ w'', get_session (Some k) w' = (Return k, w'')
             ∧ uuid4_draws w'' = uuid4_draws w
             ∧ dom (sessions (session_memory_service w''))
               = dom (sessions (session_memory_service w)).
Proof.
  intros Hs Hexp. rewrite (get_session_known_run _ _ _ Hs).
  destruct (Z.ltb_spec (session_timeout (session_memory_service w))
              (clock w (clock_reads w) - last_access s)); [|lia].
  eexists. split; [reflexivity|]. simpl.
  assert (Hdom : dom (<[k:=ConversationSession.clear s]>
                        (sessions (session_memory_service w)))
                 = dom (sessions (session_memory_service w))).
  { rewrite dom_insert_L. apply elem_of_dom_2 in Hs. set_solver. }
  split_and!; try done.
  - rewrite get_conversation_history_run. simpl.
    erewrite known_of_lookup by (simpl; apply lookup_insert_eq).
    by rewrite lookup_insert_eq.
  - erewrite get_session_known_run by (simpl; apply lookup_insert_eq).
    eexists. split; [reflexivity|].
    destruct (_ <? _); simpl; rewrite ?insert_insert_eq; done.
Qed.

Lemma resolved_known w k s :
  sessions (session_memory_service w) !! k = Some s →
  resolved_history w (Some k)
  = (if session_timeout (session_memory_service w)
        <? clock w (clock_reads w) - last_access s
     then [] else messages s)
  ∧ resolved_max_history w (Some k) = max_history s.
Proof.
  intros Hs. unfold resolved_history, resolved_max_history.
  by rewrite (known_of_lookup _ _ _ Hs), Hs.
Qed.


(** C9, as the code has it: [last_access] is set to the instant read last
    by every [add_message]; a fetch with [get_session], also one whose
    expiry check empties the session, leaves [last_access] as it was, and
    the history reads [get_conversation_history] and
    [get_conversation_context] change nothing at all. *)
Theorem last_access_set_by_writes_only w :
  (∀ requested role content,
     registry_wf (session_memory_service w) →
     ∃ sid s w',
       add_message requested role content w = (Return sid, w')
       ∧ sessions (session_memory_service w') !! sid = Some s
       ∧ (clock_reads w < clock_reads w')%nat
       ∧ last_access s = clock w (pred (clock_reads w')))
  ∧ (∀ k s,
       sessions (session_memory_service w) !! k = Some s →
       ∃ s' w',
         get_session (Some k) w = (Return k, w')
         ∧ sessions (session_memory_service w') !! k = Some s'
         ∧ clock_reads w' = S (clock_reads w)
         ∧ last_access s' = last_access s)
  ∧ (∀ requested last_n,
       (get_conversation_history requested last_n w).2 = w)
  ∧ (∀ requested last_n,
       (get_conversation_context requested last_n w).2 = w).
Proof.
  split_and!.
  - intros requested role content Hwf.
    destruct (add_message_spec w requested role content Hwf)
      as (sid & s & t & w' & Hrun & Hreg & _ & _ & _ & Hacc & Hreads & _).
    exists sid, s, w'. split_and!; try done.
    rewrite Hreg. apply lookup_insert_eq.
  - intros k s Hs. rewrite (get_session_known_run _ _ _ Hs).
    destruct (_ <? _).
    + eexists _, _. split; [reflexivity|]. simpl.
      rewrite lookup_insert_eq. done.
    + eexists _, _. split; [reflexivity|]. done.
  - intros. by rewrite get_conversation_history_run.
  - intros. apply get_conversation_context_world.
Qed.
End Memory.

(** ** Sources and context *)

Section Sources.

Lemma first_seen_elem l x : x ∈ first_seen l ↔ x ∈ l.
Proof.
  induction l as [|y l IH]; simpl; [done|].
  rewrite !elem_of_cons, list_elem_of_filter, IH.
  destruct (decide (x = y)); naive_solver.
Qed.

Lemma first_seen_NoDup l : NoDup (first_seen l).
Proof.
  induction l as [|y l IH]; simpl; [constructor|].
  apply NoDup_cons. split; [|by apply NoDup_filter].
  rewrite list_elem_of_filter. naive_solver.
Qed.

(** Labels seen earlier come first: the labels of a later part are added
    after those of the earlier part, without the ones already there. *)
Lemma first_seen_app l1 l2 :
  first_seen (l1 ++ l2)
  = first_seen l1 ++ filter (λ y, y ∉ l1) (first_seen l2).
Proof.
  induction l1 as [|x l1 IH]; simpl.
  - symmetry. apply filter_Forall_id, Forall_forall. intros y _. set_solver.
  - rewrite IH, filter_app, list_filter_filter. do 2 f_equal.
    apply list_filter_iff. intros y. rewrite not_elem_of_cons. naive_solver.
Qed.

Lemma collect_loop results : ∀ context_parts sources,
  fold_left collect_step results (context_parts, sources)
  = (context_parts ++ map text results,
     sources ++ filter (λ y, y ∉ sources) (first_seen (map source_label results))).
Proof.
  induction results as [|r results IH]; intros context_parts sources; simpl.
  - by rewrite !app_nil_r.
  - case_bool_decide as Hin; rewrite IH, <- !app_assoc; simpl; do 2 f_equal.
    + rewrite filter_cons, decide_False by (intros Hn; by apply Hn).
      rewrite list_filter_filter. apply list_filter_iff. intros y.
      split; [|naive_solver]. intros Hy. split; [done|]. by intros ->.
    + rewrite filter_cons, decide_True by done. f_equal.
      rewrite list_filter_filter. apply list_filter_iff. intros y.
      rewrite not_elem_of_app, list_elem_of_singleton. naive_solver.
Qed.

Lemma context_of_join results :
  context_of results
  = Py.join (PyStr.newline +:+ PyStr.newline) (map text results).
Proof. unfold context_of, collect. by rewrite collect_loop. Qed.

Lemma sources_of_first_seen results :
  sources_of results = first_seen (map source_label results).
Proof.
  unfold sources_of, collect. rewrite collect_loop. simpl.
  apply filter_Forall_id, Forall_forall. intros y _. set_solver.
Qed.

End Sources.

(** ** The chat route *)

Section Chat.

Import SessionMemoryService.

Lemma get_conversation_context_run w requested last_n :
  get_conversation_context requested last_n w
  = (Return (conversation_context (session_memory_service w) requested last_n), w).
Proof.
  unfold get_conversation_context, conversation_context.
  unfold mbind at 1, M_bind at 1. rewrite get_conversation_history_run.
  destruct (known _ _) as [k|] eqn:Hk; [|done].
  apply known_Some in Hk as [_ [s Hs]]. rewrite Hs.
  by destruct (ConversationSession.get_history s last_n).
Qed.

(** The two appends that close a request. *)
Lemma record_turns w requested query answer :
  registry_wf (session_memory_service w) →
  ∃ sid s1 t1 w1 s2 t2 w2,
    add_message requested "user" query w = (Return sid, w1)
    ∧ add_message (Some sid) "assistant" answer w1 = (Return sid, w2)
    ∧ sessions (session_memory_service w1) !! sid = Some s1
    ∧ messages s1 = ConversationSession.keep_last (max_history s1)
        (resolved_history w requested
         ++ [{| role := "user"; content := query; timestamp := t1 |}])
    ∧ sessions (session_memory_service w2) !! sid = Some s2
    ∧ session_id s2 = sid
    ∧ messages s2 = ConversationSession.keep_last (max_history s1)
        ((if session_timeout (session_memory_service w1)
             <? clock w1 (clock_reads w1) - last_access s1
          then [] else messages s1)
         ++ [{| role := "assistant"; content := answer; timestamp := t2 |}])
    ∧ dom (sessions (session_memory_service w2))
      = {[sid]} ∪ dom (sessions (session_memory_service w))
    ∧ calls w2 = calls w.
Proof.
  intros Hwf.
  destruct (add_message_spec w requested "user" query Hwf)
    as (sid & s1 & t1 & w1 & Hrun & Hreg & Hid & Hmh & Hmsgs & _ & _ & _
        & Hcalls & _ & Hwf1).
  assert (Hs : sessions (session_memory_service w1) !! sid = Some s1)
    by (rewrite Hreg; apply lookup_insert_eq).
  destruct (add_message_spec w1 (Some sid) "assistant" answer Hwf1)
    as (sid2 & s2 & t2 & w2 & Hrun2 & Hreg2 & Hid2 & Hmh2 & Hmsgs2
        & _ & _ & _ & Hcalls2 & Hnew2 & _).
  destruct (resolved_known _ _ _ Hs) as [Hhist Hmax].
  destruct Hnew2 as [[Hk _]|[Hk _]];
    [|by rewrite (known_of_lookup _ _ _ Hs) in Hk].
  apply known_Some in Hk as [[= <-] _].
  exists sid, s1, t1, w1, s2, t2, w2. split_and!; try done.
  - rewrite Hreg2. apply lookup_insert_eq.
  - by rewrite Hmsgs2, Hmh2, Hmax, Hhist.
  - rewrite Hreg2, Hreg, !dom_insert_L. set_solver.
  - congruence.
Qed.

Lemma chat_body_no_results request w e es :
  generate_embeddings w [ChatRequest.query request] = Return (e :: es) →
  search w e (ChatRequest.top_k request) = Return [] →
  chat_body request w
  = match add_message (ChatRequest.session_id request) "user"
            (ChatRequest.query request) (searched request e w) with
    | (Return sid, w1) =>
        match add_message (Some sid) "assistant" fallback_answer w1 with
        | (Return _, w2) =>
            (Return {| ChatResponse.answer := fallback_answer;
                       ChatResponse.sources := [];
                       ChatResponse.session_id := sid |}, w2)
        | (Raise exc, w2) => (Raise exc, w2)
        end
    | (Raise exc, w1) => (Raise exc, w1)
    end.
Proof.
  intros Hemb Hsearch. unfold chat_body. run. simpl.
  rewrite Hemb. simpl. rewrite Hsearch. reflexivity.
Qed.

Lemma chat_body_results request w e es r rs :
  generate_embeddings w [ChatRequest.query request] = Return (e :: es) →
  search w e (ChatRequest.top_k request) = Return (r :: rs) →
  let history := history_argument
    (conversation_context (session_memory_service w)
       (ChatRequest.session_id request) (Some 5)) in
  let call := GenerateResponse (ChatRequest.query request)
                (context_of (r :: rs)) history in
  chat_body request w
  = match generate_response w (ChatRequest.query request)
            (context_of (r :: rs)) history with
    | Raise exc => (Raise exc, record_call call (searched request e w))
    | Return answer =>
        match add_message (ChatRequest.session_id request) "user"
                (ChatRequest.query request)
                (record_call call (searched request e w)) with
        | (Return sid, w1) =>
            match add_message (Some sid) "assistant" answer w1 with
            | (Return _, w2) =>
                (Return {| ChatResponse.answer := answer;
                           ChatResponse.sources := sources_of (r :: rs);
                           ChatResponse.session_id := sid |}, w2)
            | (Raise exc, w2) => (Raise exc, w2)
            end
        | (Raise exc, w1) => (Raise exc, w1)
        end
    end.
Proof.
  intros Hemb Hsearch history call. unfold chat_body.
  unfold mbind at 1, M_bind at 1. unfold call_generate_embeddings. run. simpl.
  rewrite Hemb. simpl. rewrite Hsearch. cbv beta iota.
  rewrite get_conversation_context_run. simpl.
  fold (searched request e w). unfold history_argument in history.
  subst history call. by destruct (generate_response _ _ _ _).
Qed.


(** C6: when the generation call raises, [chat] fails with status 500 and
    the session store is what it was before the request: no message is
    appended, no session created, no clock read, no identifier drawn. *)
Theorem chat_generation_failure_keeps_history request w e es r rs exc :
  generate_embeddings w [ChatRequest.query request] = Return (e :: es) →
  search w e (ChatRequest.top_k request) = Return (r :: rs) →
  generate_response w (ChatRequest.query request) (context_of (r :: rs))
    (history_argument
       (conversation_context (session_memory_service w)
          (ChatRequest.session_id request) (Some 5)))
  = Raise exc →
  ∃ w',
    chat request w = (Raise (HTTPException 500 (exn_str exc)), w')
    ∧ session_memory_service w' = session_memory_service w
    ∧ clock_reads w' = clock_reads w
    ∧ uuid4_draws w' = uuid4_draws w
    ∧ ∀ requested last_n,
        (get_conversation_history requested last_n w').1
        = (get_conversation_history requested last_n w).1.
Proof.
  intros Hemb Hsearch Hgen. eexists. split.
  - unfold chat, try_except.
    rewrite (chat_body_results _ _ _ _ _ _ Hemb Hsearch). cbv zeta.
    rewrite Hgen. reflexivity.
  - split_and!; try done. intros. by rewrite !get_conversation_history_run.
Qed.

(** C7: for a non-empty result list, the context passed to generation is
    the result texts, in the order of the index, joined with a blank line,
    and the sources returned are the labels
    [source (chunk chunk_id)] in first-seen order, each once. *)
Theorem chat_sources_and_context request w e es r rs answer :
  registry_wf (session_memory_service w) →
  generate_embeddings w [ChatRequest.query request] = Return (e :: es) →
  search w e (ChatRequest.top_k request) = Return (r :: rs) →
  let results := r :: rs in
  let context := Py.join (PyStr.newline +:+ PyStr.newline) (map text results) in
  let history := history_argument
    (conversation_context (session_memory_service w)
       (ChatRequest.session_id request) (Some 5)) in
  generate_response w (ChatRequest.query request) context history
    = Return answer →
  ∃ sid w',
    chat request w
    = (Return {| ChatResponse.answer := answer;
                 ChatResponse.sources := first_seen (map source_label results);
                 ChatResponse.session_id := sid |}, w')
    ∧ calls w' = calls w ++ [GenerateEmbeddings [ChatRequest.query request];
                             Search e (ChatRequest.top_k request);
                             GenerateResponse (ChatRequest.query request)
                               context history]
    ∧ sources_of results = first_seen (map source_label results)
    ∧ context_of results = context
    ∧ NoDup (sources_of results)
    ∧ (∀ label, label ∈ sources_of results ↔ ∃ x, x ∈ results ∧ label = source_label x)
    ∧ (∀ rs1 rs2, results = rs1 ++ rs2 →
         sources_of results
         = sources_of rs1 ++ filter (λ y, y ∉ sources_of rs1) (sources_of rs2))
    ∧ (∀ r1 r2, source r1 = source r2 → chunk_id r1 = chunk_id r2 →
         sources_of [r1; r2] = [source_label r1]).
Proof.
  intros Hwf Hemb Hsearch results context history Hgen.
  assert (Hctx : context_of results = context) by apply context_of_join.
  pose proof (chat_body_results request w e es r rs Hemb Hsearch) as Hbody.
  cbv zeta in Hbody. fold results in Hbody. rewrite Hctx in Hbody.
  fold history in Hbody. rewrite Hgen in Hbody.
  destruct (record_turns
              (record_call (GenerateResponse (ChatRequest.query request)
                              context history) (searched request e w))
              (ChatRequest.session_id request) (ChatRequest.query request)
              answer Hwf)
    as (sid & s1 & t1 & w1 & s2 & t2 & w2 & Hrun1 & Hrun2 & _ & _ & _ & _ & _
        & _ & Hcalls).
  rewrite Hrun1, Hrun2 in Hbody.
  exists sid, w2. split_and!.
  - unfold chat, try_except. rewrite Hbody.
    by rewrite sources_of_first_seen.
  - rewrite Hcalls. simpl. by rewrite <- !app_assoc.
  - apply sources_of_first_seen.
  - done.
  - rewrite sources_of_first_seen. apply first_seen_NoDup.
  - intros label. rewrite sources_of_first_seen, first_seen_elem, list_elem_of_fmap.
    naive_solver.
  - intros rs1 rs2 ->. rewrite !sources_of_first_seen, map_app, first_seen_app.
    f_equal. apply list_filter_iff. intros y. by rewrite first_seen_elem.
  - intros r1 r2 Hsrc Hid. rewrite sources_of_first_seen. simpl.
    unfold source_label. rewrite Hsrc, Hid.
    by rewrite filter_cons, decide_False by (intros Hn; by apply Hn).
Qed.
(** *** The registry invariant

    Every session is stored under its own identifier: this holds for the
    store the service starts with and is kept by every operation of the
    store and by [chat]. *)

Lemma registry_wf_init : registry_wf session_memory_service_init.
Proof. apply map_Forall_empty. Qed.

Lemma add_message_wf w requested role content :
  registry_wf (session_memory_service w) →
  registry_wf (session_memory_service (add_message requested role content w).2).
Proof.
  intros Hwf.
  destruct (add_message_spec w requested role content Hwf)
    as (sid & s & t & w' & Hrun & _ & _ & _ & _ & _ & _ & _ & _ & _ & Hwf').
  by rewrite Hrun.
Qed.

Lemma get_session_wf w requested :
  registry_wf (session_memory_service w) →
  registry_wf (session_memory_service (get_session requested w).2).
Proof.
  intros Hwf.
  destruct (known (session_memory_service w) requested) as [k|] eqn:Hknown.
  - apply known_Some in Hknown as [-> [s Hs]].
    rewrite (get_session_known_run _ _ _ Hs).
    destruct (_ <? _); [|done]. simpl.
    eapply registry_wf_insert; [done | | reflexivity]. by apply (Hwf _ _ Hs).
  - rewrite (get_session_new_run _ _ Hknown). simpl.
    eapply registry_wf_insert; [done | | reflexivity]. done.
Qed.

Lemma clear_session_wf w k :
  registry_wf (session_memory_service w) →
  registry_wf (session_memory_service (clear_session k w).2).
Proof.
  intros Hwf. unfold clear_session. run.
  destruct (sessions (session_memory_service w) !! k) as [s|] eqn:Hs; [|done].
  simpl. eapply registry_wf_insert; [done | | reflexivity]. by apply (Hwf _ _ Hs).
Qed.

Lemma delete_session_wf w k :
  registry_wf (session_memory_service w) →
  registry_wf (session_memory_service (delete_session k w).2).
Proof. intros Hwf. by apply map_Forall_delete. Qed.

Lemma cleanup_expired_sessions_wf w :
  registry_wf (session_memory_service w) →
  registry_wf (session_memory_service (cleanup_expired_sessions w).2).
Proof.
  intros Hwf k s. unfold cleanup_expired_sessions. run. simpl.
  rewrite map_lookup_filter_Some. intros [Hs _]. by apply (Hwf _ _ Hs).
Qed.

Lemma chat_wf request w :
  registry_wf (session_memory_service w) →
  registry_wf (session_memory_service (chat request w).2).
Proof.
  intros Hwf. unfold chat, try_except.
  destruct (generate_embeddings w [ChatRequest.query request])
    as [[|e es]|exc] eqn:Hemb.
  - unfold chat_body. run. simpl. by rewrite Hemb.
  - destruct (search w e (ChatRequest.top_k request)) as [[|r rs]|exc] eqn:Hsearch.
    + rewrite (chat_body_no_results _ _ _ _ Hemb Hsearch).
      destruct (record_turns (searched request e w)
                  (ChatRequest.session_id request) (ChatRequest.query request)
                  fallback_answer Hwf)
        as (sid & s1 & t1 & w1 & s2 & t2 & w2 & Hrun1 & Hrun2 & _).
      rewrite Hrun1, Hrun2. simpl.
      change w2 with (Return sid, w2).2. rewrite <- Hrun2. apply add_message_wf.
      change w1 with (Return sid, w1).2. rewrite <- Hrun1. by apply add_message_wf.
    + rewrite (chat_body_results _ _ _ _ _ _ Hemb Hsearch). cbv zeta.
      destruct (generate_response _ _ _ _) as [answer|exc]; [|done].
      match goal with
      | |- context [add_message _ "user" _ ?w0] =>
          destruct (record_turns w0 (ChatRequest.session_id request)
                      (ChatRequest.query request) answer Hwf)
            as (sid & s1 & t1 & w1 & s2 & t2 & w2 & Hrun1 & Hrun2 & _)
      end.
      rewrite Hrun1, Hrun2. simpl.
      change w2 with (Return sid, w2).2. rewrite <- Hrun2. apply add_message_wf.
      change w1 with (Return sid, w1).2. rewrite <- Hrun1. by apply add_message_wf.
    + unfold chat_body. run. simpl. rewrite Hemb. simpl. by rewrite Hsearch.
  - unfold chat_body. run. simpl. by rewrite Hemb.
Qed.

End Chat.

(** * Instances *)

(** ** The built-ins on concrete inputs *)

Example split_runs :
  Py.split ("  one" +:+ PyStr.newline +:+ "two   three ") = ["one"; "two"; "three"].
Proof. reflexivity. Qed.

Example strip_both_ends : Py.strip "  a b  " = "a b".
Proof. reflexivity. Qed.

Example slice_examples :
  Py.slice (Some 1) (Some 3) [10; 20; 30; 40] = [20; 30]
  ∧ Py.slice (Some (-2)) None [10; 20; 30; 40] = [30; 40]
  ∧ Py.slice (Some 0) (Some (-1)) [10; 20; 30; 40] = [10; 20; 30]
  ∧ Py.slice (Some 3) (Some 9) [10; 20; 30; 40] = [40]
  ∧ Py.slice (Some (-9)) None [10; 20; 30; 40] = [10; 20; 30; 40].
Proof. repeat split. Qed.

Example range_examples :
  Py.range 0 6 3 = Return [0; 3]
  ∧ Py.range 0 7 3 = Return [0; 3; 6]
  ∧ Py.range 0 6 (-1) = Return []
  ∧ raises (Py.range 0 6 0).
Proof. repeat split. by eexists. Qed.

Example capitalize_roles :
  PyStr.capitalize "user" = "User" ∧ PyStr.capitalize "assistant" = "Assistant".
Proof. split; reflexivity. Qed.

(** The letters of the Latin-1 block change case too, and the sharp s
    becomes two letters. *)
Example capitalize_latin1 :
  PyStr.capitalize (String (Ascii.ascii_of_N 233) "CHO")
  = String (Ascii.ascii_of_N 201) "cho"
  ∧ PyStr.capitalize (String (Ascii.ascii_of_N 223) "A") = "Ssa"
  ∧ PyStr.capitalize_below_256 (String (Ascii.ascii_of_N 233) "CHO") = true
  ∧ PyStr.capitalize_below_256 (String (Ascii.ascii_of_N 255) "a") = false.
Proof. vm_compute. done. Qed.

(** [str(KeyError(key))] is [repr(key)]: double quotes around a key with
    an apostrophe, escapes for the backslash and the controls. *)
Example exn_str_key_error :
  exn_str (KeyError "s1") = "'s1'"
  ∧ exn_str (KeyError "it's")
    = String Py.double_quote ("it's" +:+ String Py.double_quote EmptyString)
  ∧ exn_str (KeyError (String Py.backslash (String (Ascii.ascii_of_N 10) "a")))
    = "'" +:+ String Py.backslash (String Py.backslash (String Py.backslash "na'"))
  ∧ exn_str (KeyError (String (Ascii.ascii_of_N 160) EmptyString))
    = "'" +:+ String Py.backslash "xa0'"
  ∧ exn_str (ValueError "it's") = "it's".
Proof. vm_compute. done. Qed.

(** ** The chunker, the store and the chat route on concrete inputs *)

Lemma chunk_text_nonpositive_step_witness :
  (2 ≤ 2 ∧ DocumentService.chunk_text settings "a b c" (Some 2) (Some 2)
           = Raise (ValueError "range() arg 3 must not be zero"))
  ∧ (2 ≤ 3 ∧ DocumentService.chunk_text settings "a b c" (Some 2) (Some 3)
             = Return []).
Proof.
  split; (split; [lia|]).
  - exact (chunk_text_nonpositive_step settings "a b c" 2 2 ltac:(lia)).
  - exact (chunk_text_nonpositive_step settings "a b c" 2 3 ltac:(lia)).
Defined.

(** C1 as worded fails: with [overlap > chunk_size] nothing is raised. *)
Lemma chunk_text_overlap_above_size_no_error :
  3 ≥ 2 ∧ ¬ raises (DocumentService.chunk_text settings "a b c" (Some 2) (Some 3)).
Proof. split; [lia|]. intros [e He]. vm_compute in He. discriminate. Qed.

(** C8 as worded fails for a negative window length: [overlap < chunk_size]
    holds for [(-1, -2)], and the slice [words[0:-1]] gives a chunk of two
    words. *)
Lemma chunk_text_negative_size_window :
  -2 < -1
  ∧ DocumentService.chunk_text settings "a b c" (Some (-1)) (Some (-2))
    = Return ["a b"]
  ∧ Py.split "a b" = ["a"; "b"]
  ∧ ¬ Py.len (Py.split "a b") ≤ -1.
Proof. split; [lia|]. split; [reflexivity|]. split; [reflexivity|]. vm_compute. done. Qed.

Lemma chunk_text_windows_witness :
  (0 ≤ 4 ∧ 1 < 4)
  ∧ DocumentService.chunk_text settings "one two  three four five six" (Some 4) (Some 1)
    = Return ["one two three four"; "four five six"].
Proof.
  split; [lia|].
  pose proof (chunk_text_windows settings "one two  three four five six" 4 1
                ltac:(lia) ltac:(lia)) as H.
  cbv zeta in H. destruct H as (_ & _ & _ & _ & _ & H).
  exact (H eq_refl eq_refl "one" "two" "three" "four" "five" "six" eq_refl).
Defined.

Lemma get_session_expired_keeps_id_witness :
  let w := demo_world {["s1" := demo_session]} (λ _, timedelta_hours 25) []
             (Return "ok") in
  ∃ w', SessionMemoryService.get_session (Some "s1") w = (Return "s1", w')
        ∧ (SessionMemoryService.get_conversation_history (Some "s1") None w').1
          = Return [].
Proof.
  intros w.
  destruct (get_session_expired_keeps_id w "s1" demo_session)
    as (w' & Hrun & _ & _ & _ & _ & _ & Hhist & _).
  - vm_compute. reflexivity.
  - vm_compute. reflexivity.
  - exists w'. split; [exact Hrun | exact Hhist].
Defined.

(** Twelve appends to an empty session with [max_history = 10] leave the
    last ten turns, oldest first. *)
Lemma twelve_appends_keep_last_ten w sid created accessed :
  ∃ self' w',
    add_all {| session_id := sid; messages := []; max_history := 10;
               created_at := created; last_access := accessed |}
      twelve_turns w = (Return self', w')
    ∧ Py.len (messages self') = 10
    ∧ map turn_of (messages self') = drop 2 twelve_turns.
Proof.
  edestruct (add_all_turns twelve_turns
               {| session_id := sid; messages := []; max_history := 10;
                  created_at := created; last_access := accessed |} w)
    as (self' & w' & Hrun & _ & Hturns); [simpl; lia | done |].
  exists self', w'. split; [exact Hrun|]. split; [|exact Hturns].
  unfold Py.len. rewrite <- (length_map turn_of), Hturns. reflexivity.
Qed.

Example chat_fallback_run :
  let w := demo_world ∅ (λ n, Z.of_nat n) [] (Return "unused") in
  (chat (demo_request None) w).1
  = Return {| ChatResponse.answer := fallback_answer; ChatResponse.sources := [];
              ChatResponse.session_id := "uuid-0" |}
  ∧ (map turn_of ∘ messages)
      <$> (sessions (session_memory_service (chat (demo_request None) w).2) !! "uuid-0")
    = Some [("user", "what is a chunk?"); ("assistant", fallback_answer)].
Proof. vm_compute. done. Qed.





Lemma chat_generation_failure_keeps_history_witness :
  let w := demo_world {["s1" := demo_session]} (λ n, Z.of_nat n)
             [demo_result "a.txt" 0 "alpha"]
             (Raise (RuntimeError "Model not loaded. Call load_model() first.")) in
  ∃ w',
    chat (demo_request (Some "s1")) w
    = (Raise (HTTPException 500 "Model not loaded. Call load_model() first."), w')
    ∧ session_memory_service w' = session_memory_service w.
Proof.
  intros w.
  destruct (chat_generation_failure_keeps_history (demo_request (Some "s1")) w
              [float_zero] [] (demo_result "a.txt" 0 "alpha") []
              (RuntimeError "Model not loaded. Call load_model() first."))
    as (w' & Hrun & Hmem & _).
  - reflexivity.
  - reflexivity.
  - reflexivity.
  - exists w'. split; [exact Hrun | exact Hmem].
Defined.

Lemma chat_sources_and_context_witness :
  let w := demo_world ∅ (λ n, Z.of_nat n)
             [demo_result "a.txt" 0 "alpha"; demo_result "a.txt" 0 "alpha";
              demo_result "b.txt" 1 "beta"]
             (Return "an answer") in
  ∃ sid w',
    chat (demo_request None) w
    = (Return {| ChatResponse.answer := "an answer";
                 ChatResponse.sources := ["a.txt (chunk 0)"; "b.txt (chunk 1)"];
                 ChatResponse.session_id := sid |}, w')
    ∧ calls w' = [GenerateEmbeddings ["what is a chunk?"];
                  Search [float_zero] (Some 3);
                  GenerateResponse "what is a chunk?"
                    ("alpha" +:+ PyStr.newline +:+ PyStr.newline +:+ "alpha"
                     +:+ PyStr.newline +:+ PyStr.newline +:+ "beta") None].
Proof.
  intros w.
  destruct (chat_sources_and_context (demo_request None) w [float_zero] []
              (demo_result "a.txt" 0 "alpha")
              [demo_result "a.txt" 0 "alpha"; demo_result "b.txt" 1 "beta"]
              "an answer")
    as (sid & w' & Hrun & Hcalls & _).
  - apply map_Forall_empty.
  - reflexivity.
  - reflexivity.
  - reflexivity.
  - exists sid, w'. split; [exact Hrun | exact Hcalls].
Defined.

Lemma last_access_set_by_writes_only_witness :
  let w := demo_world {["s1" := demo_session]} (λ n, 5 + Z.of_nat n) []
             (Return "unused") in
  (∃ sid s w',
     SessionMemoryService.add_message (Some "s1") "user" "hi" w = (Return sid, w')
     ∧ sessions (session_memory_service w') !! sid = Some s
     ∧ last_access s = clock w (pred (clock_reads w')))
  ∧ (∃ s' w',
       SessionMemoryService.get_session (Some "s1") w = (Return "s1", w')
       ∧ sessions (session_memory_service w') !! "s1" = Some s'
       ∧ last_access s' = last_access demo_session).
Proof.
  intros w.
  destruct (last_access_set_by_writes_only w) as (Hadd & Hget & _).
  split.
  - destruct (Hadd (Some "s1") "user" "hi") as (sid & s & w' & Hrun & Hs & _ & Hacc).
    + apply map_Forall_singleton. reflexivity.
    + exists sid, s, w'. split; [exact Hrun|]. split; [exact Hs | exact Hacc].
  - destruct (Hget "s1" demo_session) as (s' & w' & Hrun & Hs & _ & Hacc).
    + vm_compute. reflexivity.
    + exists s', w'. split; [exact Hrun|]. split; [exact Hs | exact Hacc].
Defined.

(** C9 as worded fails: a history read of an existing session, and a fetch
    whose expiry check empties it, both leave [last_access] at its old
    value, not at the instant of the access. *)
Lemma reads_leave_last_access_unchanged :
  let w := demo_world {["s1" := demo_session]} (λ _, timedelta_hours 25) []
             (Return "unused") in
  let read := SessionMemoryService.get_conversation_history (Some "s1") None w in
  let fetch := SessionMemoryService.get_session (Some "s1") w in
  read.1 = Return (messages demo_session)
  ∧ (∃ s, sessions (session_memory_service read.2) !! "s1" = Some s
          ∧ last_access s = 0 ∧ last_access s ≠ clock w (clock_reads w))
  ∧ fetch.1 = Return "s1"
  ∧ (∃ s, sessions (session_memory_service fetch.2) !! "s1" = Some s
          ∧ messages s = []
          ∧ last_access s = 0 ∧ last_access s ≠ clock w (clock_reads w)).
Proof.
  intros w read fetch. split; [vm_compute; reflexivity|]. split.
  - exists demo_session. split; [vm_compute; reflexivity|]. split; [reflexivity|].
    vm_compute. discriminate.
  - split; [vm_compute; reflexivity|].
    exists (ConversationSession.clear demo_session).
    split; [vm_compute; reflexivity|]. split; [reflexivity|].
    split; [reflexivity|]. vm_compute. discriminate.
Qed.

(** * Further properties *)

(** ** The chunker *)

Section ChunkerMore.

Import DocumentService.

Lemma lstrip_blank s : blank s = true → Py.lstrip s = EmptyString.
Proof.
  induction s as [|c s IH]; simpl; [done|].
  intros [Hc Hs]%andb_prop. rewrite Hc. by apply IH.
Qed.

Lemma strip_truthy s : Py.truthy (Py.strip s) = negb (blank s).
Proof.
  unfold Py.strip. induction s as [|c s IH]; simpl; [done|].
  destruct (Py.isspace c) eqn:Hc; simpl; [done|].
  by apply (rstrip_solid_head c s).
Qed.

Lemma split_from_truthy s : ∀ w, Py.truthy w = true → Py.split_from w s ≠ [].
Proof.
  induction s as [|c s IH]; intros w Hw; simpl.
  - by rewrite Hw.
  - destruct (Py.isspace c); [by rewrite Hw|].
    apply IH, truthy_snoc.
Qed.

Lemma split_nil_blank s : Py.split s = [] ↔ blank s = true.
Proof.
  unfold Py.split. induction s as [|c s IH]; simpl; [done|].
  destruct (Py.isspace c) eqn:Hc; simpl; [done|].
  split; [|done]. intros H. by apply split_from_truthy in H.
Qed.

Lemma chunk_text_defaults cfg text :
  chunk_text cfg text None None
  = chunk_text cfg text (Some (CHUNK_SIZE cfg)) (Some (CHUNK_OVERLAP cfg)).
Proof. reflexivity. Qed.

(** [chunk_text] for a positive window length and a positive step: one
    chunk per window, no window left out. *)
Lemma chunk_text_run cfg text chunk_size overlap :
  0 < chunk_size → overlap < chunk_size →
  let words := Py.split text in
  let step := chunk_size - overlap in
  chunk_text cfg text (Some chunk_size) (Some overlap)
  = Return (map (λ k, Py.join " "
                        (window_at words (Z.to_nat chunk_size) (Z.to_nat step) k))
              (seq 0 (Z.to_nat ((Py.len words + step - 1) / step)))).
Proof.
  intros Hcs Hov words step.
  rewrite chunk_text_positive_step by done. fold words step. f_equal.
  assert (Hstep : 0 < step) by (unfold step; lia).
  rewrite filter_Forall_id.
  - rewrite !map_map. apply map_ext_in. intros k Hk%in_seq.
    unfold window_at. rewrite slice_window by lia. do 3 f_equal. lia.
  - rewrite map_map. apply Forall_map, Forall_forall.
    intros k Hk%elem_of_seq. simpl.
    assert (Z.of_nat k * step < Py.len words)
      by (apply range_offset_lt; [apply len_nonneg | done | lia]).
    rewrite slice_window by lia.
    apply window_nonempty; unfold Py.len in *; lia.
Qed.

Lemma chunk_text_nonblank cfg text chunk_size overlap :
  0 < chunk_size → overlap < chunk_size →
  ∃ chunks,
    chunk_text cfg text (Some chunk_size) (Some overlap) = Return chunks
    ∧ Py.len chunks
      = (Py.len (Py.split text) + (chunk_size - overlap) - 1) / (chunk_size - overlap)
    ∧ (chunks = [] ↔ Py.truthy (Py.strip text) = false).
Proof.
  intros Hcs Hov. eexists. split; [by apply chunk_text_run|].
  set (n := Py.len (Py.split text)). set (step := chunk_size - overlap).
  assert (Hn : 0 ≤ n) by apply len_nonneg.
  assert (Hq : 0 ≤ (n + step - 1) / step) by (apply Z.div_pos; lia).
  split.
  - unfold Py.len. rewrite length_map, length_seq. lia.
  - rewrite strip_truthy, negb_false_iff, <- split_nil_blank.
    rewrite <- (length_zero_iff_nil (map _ _)), length_map, length_seq.
    rewrite <- (length_zero_iff_nil (Py.split text)). fold (Py.len (Py.split text)).
    unfold Py.len in n. fold n.
    split.
    + intros H0. assert ((n + step - 1) / step ≤ 0) by lia.
      destruct (decide (n = 0)) as [|Hne]; [lia|].
      assert (1 ≤ (n + step - 1) / step)
        by (apply Z.div_le_lower_bound; lia). lia.
    + intros H0. replace n with 0 by lia.
      rewrite Z.div_small by lia. done.
Qed.

(** X1: for a positive window length and [overlap < chunk_size],
    [chunk_text] returns [ceil(words / step)] chunks, and it returns no
    chunk exactly when the text is blank, that is when [text.strip()] is
    empty. *)
Theorem chunk_text_count cfg text chunk_size overlap :
  0 < chunk_size → overlap < chunk_size →
  ∃ chunks,
    chunk_text cfg text (Some chunk_size) (Some overlap) = Return chunks
    ∧ Py.len chunks
      = (Py.len (Py.split text) + (chunk_size - overlap) - 1) / (chunk_size - overlap)
    ∧ (chunks = [] ↔ Py.truthy (Py.strip text) = false).
Proof. apply chunk_text_nonblank. Qed.

Lemma window_at_lookup words chunk_size step k i :
  (i < chunk_size)%nat →
  window_at words chunk_size step k !! i = words !! (k * step + i)%nat.
Proof.
  intros Hi. unfold window_at. by rewrite lookup_take_lt, lookup_drop by done.
Qed.

(** X2: when [0 ≤ overlap < chunk_size] no word is lost: the word at
    position [j] of the text is in chunk [j / step], at position
    [j mod step] of its window. *)
Theorem chunk_text_covers_every_word cfg text chunk_size overlap :
  0 ≤ overlap → overlap < chunk_size →
  let words := Py.split text in
  let step := Z.to_nat (chunk_size - overlap) in
  ∃ chunks,
    chunk_text cfg text (Some chunk_size) (Some overlap) = Return chunks
    ∧ ∀ (j : nat) word, words !! j = Some word →
        let window := window_at words (Z.to_nat chunk_size) step (j / step) in
        chunks !! (j / step)%nat = Some (Py.join " " window)
        ∧ window !! (j mod step)%nat = Some word.
Proof.
  intros Hov Hlt words step.
  eexists. split; [apply chunk_text_run; lia|].
  intros j word Hj window.
  assert (Hstep : (0 < step)%nat) by (unfold step; lia).
  assert (Hjn : (j < length words)%nat) by (by eapply lookup_lt_Some).
  pose proof (Nat.div_mod_eq j step) as Hdm.
  pose proof (Nat.mod_upper_bound j step ltac:(lia)) as Hmod.
  split.
  - rewrite list_lookup_fmap, lookup_seq_lt; [done|].
    fold words. unfold Py.len.
    assert (Z.of_nat (j / step) + 1
            ≤ (Z.of_nat (length words) + (chunk_size - overlap) - 1)
              / (chunk_size - overlap)); [|lia].
    apply Z.div_le_lower_bound; [lia|].
    replace (chunk_size - overlap) with (Z.of_nat step) by (unfold step; lia).
    nia.
  - unfold window. rewrite window_at_lookup by (unfold step in *; lia).
    rewrite <- Hj. f_equal. lia.
Qed.

(** X3: when [0 ≤ overlap < chunk_size], two consecutive windows share
    [overlap] words: what is left of a window after its first [step] words
    is the beginning of the next one. *)
Theorem chunk_text_windows_overlap cfg text chunk_size overlap :
  0 ≤ overlap → overlap < chunk_size →
  let words := Py.split text in
  let step := Z.to_nat (chunk_size - overlap) in
  let window := window_at words (Z.to_nat chunk_size) step in
  ∃ count,
    chunk_text cfg text (Some chunk_size) (Some overlap)
    = Return (map (λ k, Py.join " " (window k)) (seq 0 count))
    ∧ ∀ k, drop step (window k) = take (Z.to_nat overlap) (window (S k)).
Proof.
  intros Hov Hlt words step window.
  eexists. split; [apply chunk_text_run; lia|].
  intros k. unfold window, window_at.
  replace (Z.to_nat chunk_size) with (step + Z.to_nat overlap)%nat
    by (unfold step; lia).
  rewrite <- take_drop_commute, drop_drop, take_take.
  rewrite Nat.min_l by lia. do 2 f_equal. lia.
Qed.

End ChunkerMore.

(** ** The session store, continued *)

Section MemoryMore.

Import SessionMemoryService.

(** [add_message] with a known identifier: three clock reads (the expiry
    check, the message, the access), no identifier drawn. *)
Lemma add_message_known_run w k s role content :
  sessions (session_memory_service w) !! k = Some s →
  ∃ w',
    add_message (Some k) role content w = (Return (session_id s), w')
    ∧ sessions (session_memory_service w')
      = <[k := appended
                 (after_expiry_check (session_timeout (session_memory_service w))
                    (clock w (clock_reads w)) s)
                 role content (clock w (S (clock_reads w)))
                 (clock w (S (S (clock_reads w))))]>
          (sessions (session_memory_service w))
    ∧ clock_reads w' = S (S (S (clock_reads w)))
    ∧ uuid4_draws w' = uuid4_draws w
    ∧ same_env w w'
    ∧ calls w' = calls w.
Proof.
  intros Hs. rewrite add_message_unfold, (get_session_known_run _ _ _ Hs).
  unfold after_expiry_check. destruct (_ <? _).
  - erewrite add_message_on_run by (simpl; apply lookup_insert_eq).
    eexists. split; [reflexivity|]. simpl. rewrite insert_insert_eq.
    by split_and!.
  - erewrite add_message_on_run by (simpl; apply Hs).
    eexists. split; [reflexivity|]. by split_and!.
Qed.

(** [add_message] with an absent or unknown identifier: one identifier
    drawn, four clock reads (two for the new session, the message, the
    access). *)
Lemma add_message_new_run w requested role content :
  known (session_memory_service w) requested = None →
  ∃ w',
    add_message requested role content w = (Return (uuid4 w (uuid4_draws w)), w')
    ∧ sessions (session_memory_service w')
      = <[uuid4 w (uuid4_draws w) :=
            appended (fresh_session w) role content
              (clock w (S (S (clock_reads w))))
              (clock w (S (S (S (clock_reads w)))))]>
          (sessions (session_memory_service w))
    ∧ clock_reads w' = S (S (S (S (clock_reads w))))
    ∧ uuid4_draws w' = S (uuid4_draws w)
    ∧ same_env w w'
    ∧ calls w' = calls w.
Proof.
  intros Hk. rewrite add_message_unfold, (get_session_new_run _ _ Hk).
  erewrite add_message_on_run by (simpl; apply lookup_insert_eq).
  eexists. split; [reflexivity|]. simpl. rewrite insert_insert_eq.
  by split_and!.
Qed.

Lemma known_None_lookup self k :
  sessions self !! k = None → known self (Some k) = None.
Proof.
  intros Hk. unfold known.
  destruct (bool_decide_reflect (is_Some (sessions self !! k))) as [[x Hx]|];
    [congruence | done].
Qed.

Lemma keep_last_single max_history m :
  1 ≤ max_history → ConversationSession.keep_last max_history [m] = [m].
Proof.
  intros H. unfold ConversationSession.keep_last, Py.len. simpl.
  destruct (_ <? _) eqn:E; [|done]. apply Z.ltb_lt in E. lia.
Qed.

(** X4: an identifier the store does not know is not adopted:
    [add_message] creates the session under the identifier drawn from
    [uuid4], returns that one, and the requested identifier stays unknown
    (unless the draw happens to be equal to it). *)
Theorem add_message_unknown_id_not_adopted w k role content :
  sessions (session_memory_service w) !! k = None →
  let u := uuid4 w (uuid4_draws w) in
  ∃ s w',
    add_message (Some k) role content w = (Return u, w')
    ∧ sessions (session_memory_service w')
      = <[u := s]> (sessions (session_memory_service w))
    ∧ session_id s = u
    ∧ max_history s = max_history_per_session (session_memory_service w)
    ∧ messages s
      = ConversationSession.keep_last (max_history s)
          [{| role := role; content := content;
              timestamp := clock w (S (S (clock_reads w))) |}]
    ∧ (u ≠ k → sessions (session_memory_service w') !! k = None).
Proof.
  intros Hk u.
  destruct (add_message_new_run w (Some k) role content (known_None_lookup _ _ Hk))
    as (w' & Hrun & Hreg & _).
  eexists _, w'. split; [exact Hrun|]. split; [exact Hreg|].
  split_and!; try done.
  intros Hne. by rewrite Hreg, lookup_insert_ne.
Qed.

(** X5: an append to a session whose inactivity window has elapsed leaves
    the new message alone in its history (for [max_history ≥ 1]); the
    entry, its identifier and its creation time stay, and [last_access] is
    the instant read last. *)
Theorem add_message_to_expired_session w k s role content :
  sessions (session_memory_service w) !! k = Some s →
  session_timeout (session_memory_service w)
    < clock w (clock_reads w) - last_access s →
  1 ≤ max_history s →
  ∃ s' w',
    add_message (Some k) role content w = (Return (session_id s), w')
    ∧ sessions (session_memory_service w') !! k = Some s'
    ∧ messages s' = [{| role := role; content := content;
                        timestamp := clock w (S (clock_reads w)) |}]
    ∧ session_id s' = session_id s
    ∧ created_at s' = created_at s
    ∧ last_access s' = clock w (S (S (clock_reads w)))
    ∧ dom (sessions (session_memory_service w'))
      = dom (sessions (session_memory_service w)).
Proof.
  intros Hs Hexp Hmh.
  destruct (add_message_known_run w k s role content Hs) as (w' & Hrun & Hreg & _).
  eexists _, w'. split; [exact Hrun|].
  split; [rewrite Hreg; apply lookup_insert_eq|].
  unfold after_expiry_check.
  destruct (Z.ltb_spec (session_timeout (session_memory_service w))
              (clock w (clock_reads w) - last_access s)); [|lia].
  simpl. split_and!; try done.
  - by apply keep_last_single.
  - rewrite Hreg, dom_insert_L. apply elem_of_dom_2 in Hs. set_solver.
Qed.

Lemma slice_nil {A} lo hi : Py.slice lo hi (@nil A) = [].
Proof. unfold Py.slice. by rewrite drop_nil, take_nil. Qed.

Lemma get_history_nil self last_n :
  messages self = [] → ConversationSession.get_history self last_n = [].
Proof.
  intros H. unfold ConversationSession.get_history. rewrite H.
  destruct last_n; [apply slice_nil | done].
Qed.

(** X6: [get_conversation_history] with a count [n]: for a known
    identifier the last [n] messages when [n > 0] (all of them when there
    are fewer), every message when [n = 0], and every message but the first
    [-n] when [n < 0]; for an absent or unknown identifier the empty list.
    No session is created and nothing changes. *)
Theorem get_conversation_history_cases w requested n :
  get_conversation_history requested (Some n) w
  = (Return
       match known (session_memory_service w) requested with
       | None => []
       | Some k =>
           match sessions (session_memory_service w) !! k with
           | None => []
           | Some s =>
               if 0 <? n
               then drop (length (messages s) - Z.to_nat n) (messages s)
               else drop (Z.to_nat (- n)) (messages s)
           end
       end, w).
Proof.
  rewrite get_conversation_history_run.
  destruct (known _ _) as [k|] eqn:Hk; [|done].
  apply known_Some in Hk as [_ [s Hs]]. rewrite Hs. do 2 f_equal.
  unfold ConversationSession.get_history.
  destruct (Z.ltb_spec 0 n).
  - by apply slice_last.
  - replace (- n) with (- - (- n)) at 1 by lia.
    rewrite Z.opp_involutive. apply slice_from. lia.
Qed.

(** X7: the route [DELETE /session/{id}] always answers success; for a
    known identifier it empties the history and keeps the entry (same
    identifier, bound and timestamps), for an unknown one it changes
    nothing. No key is removed from the registry and no other session is
    touched; the history read next is empty. *)
Theorem delete_route_clears_and_keeps_entry w k :
  ∃ w',
    Routes.clear_session k w
    = (Return {| StatusDict.status := "success";
                 StatusDict.message := "Session " +:+ k +:+ " cleared" |}, w')
    ∧ sessions (session_memory_service w')
      = match sessions (session_memory_service w) !! k with
        | Some s => <[k := ConversationSession.clear s]>
                      (sessions (session_memory_service w))
        | None => sessions (session_memory_service w)
        end
    ∧ dom (sessions (session_memory_service w'))
      = dom (sessions (session_memory_service w))
    ∧ (∀ s, sessions (session_memory_service w) !! k = Some s →
         sessions (session_memory_service w') !! k
         = Some {| session_id := session_id s; messages := [];
                   max_history := max_history s; created_at := created_at s;
                   last_access := last_access s |})
    ∧ (∀ k', k' ≠ k →
         sessions (session_memory_service w') !! k'
         = sessions (session_memory_service w) !! k')
    ∧ (∀ last_n, (get_conversation_history (Some k) last_n w').1 = Return [])
    ∧ clock_reads w' = clock_reads w
    ∧ uuid4_draws w' = uuid4_draws w.
Proof.
  unfold Routes.clear_session, clear_session. run.
  destruct (sessions (session_memory_service w) !! k) as [s|] eqn:Hs.
  - eexists. split; [reflexivity|]. simpl.
    split_and!; try done.
    + rewrite dom_insert_L. apply elem_of_dom_2 in Hs. set_solver.
    + intros s' [= <-]. by rewrite lookup_insert_eq.
    + intros k' Hne. by rewrite lookup_insert_ne.
    + intros last_n. rewrite get_conversation_history_run. simpl.
      erewrite known_of_lookup by (simpl; apply lookup_insert_eq).
      rewrite lookup_insert_eq. by rewrite get_history_nil.
  - eexists. split; [reflexivity|]. simpl.
    split_and!; try done.
    intros last_n. rewrite get_conversation_history_run.
    by rewrite (known_None_lookup _ _ Hs).
Qed.

(** X8: [delete_session] removes the entry of the identifier and nothing
    else; the count of sessions drops by one when the identifier was known
    and stays when it was not. The identifier is gone for good: its
    history is empty, and an [add_message] with it opens a new session
    under a drawn identifier. *)
Theorem delete_session_forgets_id w k role content :
  ∃ w1,
    delete_session k w = (Return (), w1)
    ∧ sessions (session_memory_service w1)
      = delete k (sessions (session_memory_service w))
    ∧ (get_active_sessions_count w1).1
      = Return (Z.of_nat (size (sessions (session_memory_service w)))
                - match sessions (session_memory_service w) !! k with
                  | Some _ => 1
                  | None => 0
                  end)
    ∧ (∀ last_n, (get_conversation_history (Some k) last_n w1).1 = Return [])
    ∧ ∃ w2, add_message (Some k) role content w1
            = (Return (uuid4 w (uuid4_draws w)), w2).
Proof.
  eexists. split; [reflexivity|]. simpl.
  assert (Hgone : delete k (sessions (session_memory_service w)) !! k = None)
    by apply lookup_delete_eq.
  split_and!; try done.
  - unfold get_active_sessions_count. run. simpl. f_equal.
    rewrite map_size_delete.
    destruct (sessions (session_memory_service w) !! k) eqn:Hk; simpl; [|lia].
    assert (size (sessions (session_memory_service w)) ≠ 0%nat); [|lia].
    intros H0%map_size_empty_iff. by rewrite H0 in Hk.
  - intros last_n. rewrite get_conversation_history_run. simpl.
    by rewrite known_None_lookup.
  - match goal with
    | |- ∃ w2, add_message _ _ _ ?w1 = _ =>
        destruct (add_message_new_run w1 (Some k) role content) as (w2 & Hrun & _)
    end.
    + by apply known_None_lookup.
    + by exists w2.
Qed.

(** X9: [cleanup_expired_sessions] reads the clock once, removes exactly
    the sessions whose last access is more than the timeout before that
    instant, leaves the others as they are, and returns the number of
    sessions removed. A session idle for exactly the timeout stays. *)
Theorem cleanup_expired_sessions_removes_expired w :
  let now := clock w (clock_reads w) in
  let timeout := session_timeout (session_memory_service w) in
  ∃ n w',
    cleanup_expired_sessions w = (Return n, w')
    ∧ (∀ k s, sessions (session_memory_service w') !! k = Some s
              ↔ sessions (session_memory_service w) !! k = Some s
                ∧ now - last_access s ≤ timeout)
    ∧ n = Z.of_nat (size (sessions (session_memory_service w)))
          - Z.of_nat (size (sessions (session_memory_service w')))
    ∧ 0 ≤ n
    ∧ clock_reads w' = S (clock_reads w)
    ∧ uuid4_draws w' = uuid4_draws w.
Proof.
  intros now timeout. unfold cleanup_expired_sessions. run.
  eexists _, _. split; [reflexivity|]. simpl.
  split; [|split; [|split; [|done]]].
  - intros k s. rewrite map_lookup_filter_Some. unfold expired. simpl.
    fold now timeout. split; intros [? ?]; (split; [done|lia]).
  - pose proof (map_filter_union_complement
                  (λ kv : string * ConversationSession,
                     expired (session_timeout (session_memory_service w))
                       (clock w (clock_reads w)) kv.2)
                  (sessions (session_memory_service w))) as Hu.
    apply (f_equal size) in Hu.
    rewrite map_size_disj_union in Hu by apply map_disjoint_filter_complement.
    lia.
  - lia.
Qed.

Lemma add_message_total w requested role content :
  ∃ sid w', add_message requested role content w = (Return sid, w').
Proof.
  destruct (known (session_memory_service w) requested) as [k|] eqn:Hk.
  - apply known_Some in Hk as [-> [s Hs]].
    destruct (add_message_known_run w k s role content Hs) as (w' & Hrun & _).
    by eexists _, _.
  - destruct (add_message_new_run w requested role content Hk) as (w' & Hrun & _).
    by eexists _, _.
Qed.

(** The user turn and the assistant turn of one request, appended with the
    identifier the first append returns: when no more than the timeout
    passes between two consecutive clock reads and the bound of the session
    is at least 2, they are the last two turns of the session. *)
Lemma two_appends_tail w requested query answer :
  registry_wf (session_memory_service w) →
  2 ≤ resolved_max_history w requested →
  (∀ i : nat, (clock_reads w ≤ i ≤ clock_reads w + 3)%nat →
     clock w (S i) - clock w i ≤ session_timeout (session_memory_service w)) →
  ∃ sid w1 w2 s2,
    add_message requested "user" query w = (Return sid, w1)
    ∧ add_message (Some sid) "assistant" answer w1 = (Return sid, w2)
    ∧ sessions (session_memory_service w2) !! sid = Some s2
    ∧ last_n 2 (map turn_of (messages s2))
      = [("user", query); ("assistant", answer)].
Proof.
  intros Hwf Hmh Hclock.
  assert (Hstep : ∀ (s1 : ConversationSession) (sid : string) (w1 : World) (base : list Message) t,
    sessions (session_memory_service w1) !! sid = Some s1 →
    session_id s1 = sid →
    2 ≤ max_history s1 →
    messages s1 = ConversationSession.keep_last (max_history s1)
                    (base ++ [{| role := "user"; content := query; timestamp := t |}]) →
    ¬ session_timeout (session_memory_service w1)
      < clock w1 (clock_reads w1) - last_access s1 →
    ∃ w2 s2,
      add_message (Some sid) "assistant" answer w1 = (Return sid, w2)
      ∧ sessions (session_memory_service w2) !! sid = Some s2
      ∧ last_n 2 (map turn_of (messages s2))
        = [("user", query); ("assistant", answer)]).
  { intros s1 sid w1 base t Hs1 Hid Hmh1 Hmsgs Hfresh.
    destruct (add_message_known_run w1 sid s1 "assistant" answer Hs1)
      as (w2 & Hrun2 & Hreg2 & _).
    rewrite Hid in Hrun2. eexists w2, _. split; [exact Hrun2|].
    split; [rewrite Hreg2; apply lookup_insert_eq|].
    unfold after_expiry_check.
    destruct (Z.ltb_spec (session_timeout (session_memory_service w1))
                (clock w1 (clock_reads w1) - last_access s1)); [done|].
    simpl. rewrite Hmsgs, keep_last_snoc by lia.
    rewrite keep_last_turns by lia. rewrite <- app_assoc, map_app. simpl.
    apply last_n_snoc2. lia. }
  unfold resolved_max_history in Hmh.
  destruct (known (session_memory_service w) requested) as [k|] eqn:Hknown.
  - apply known_Some in Hknown as [-> [s Hs]]. rewrite Hs in Hmh.
    pose proof (Hwf _ _ Hs) as Hid. simpl in Hid.
    destruct (add_message_known_run w k s "user" query Hs)
      as (w1 & Hrun1 & Hreg1 & Hreads1 & _ & Henv1 & _).
    rewrite Hid in Hrun1.
    destruct Henv1 as (Hclk & _ & _ & _ & _ & _ & Hto).
    match type of Hreg1 with
    | _ = <[_ := ?s1]> _ =>
        edestruct (Hstep s1 k w1
                     (messages (after_expiry_check
                                  (session_timeout (session_memory_service w))
                                  (clock w (clock_reads w)) s)))
          as (w2 & s2 & Hrun2 & Hs2 & Htail)
    end.
    + rewrite Hreg1. apply lookup_insert_eq.
    + unfold after_expiry_check. by destruct (_ <? _).
    + unfold after_expiry_check. by destruct (_ <? _).
    + reflexivity.
    + simpl. rewrite Hclk, Hreads1, Hto.
      specialize (Hclock (S (S (clock_reads w))) ltac:(lia)). lia.
    + by exists k, w1, w2, s2.
  - destruct (add_message_new_run w requested "user" query Hknown)
      as (w1 & Hrun1 & Hreg1 & Hreads1 & _ & Henv1 & _).
    destruct Henv1 as (Hclk & _ & _ & _ & _ & _ & Hto).
    match type of Hreg1 with
    | _ = <[_ := ?s1]> _ =>
        edestruct (Hstep s1 (uuid4 w (uuid4_draws w)) w1 [])
          as (w2 & s2 & Hrun2 & Hs2 & Htail)
    end.
    + rewrite Hreg1. apply lookup_insert_eq.
    + done.
    + done.
    + reflexivity.
    + simpl. rewrite Hclk, Hreads1, Hto.
      specialize (Hclock (S (S (S (clock_reads w)))) ltac:(lia)). lia.
    + by eexists _, w1, w2, s2.
Qed.

(** X10: two [add_message] calls that both pass [None] open two sessions:
    each call draws its own identifier, and the second message is stored
    under the second identifier, not with the first message. *)
Theorem add_message_none_twice_two_sessions w role1 content1 role2 content2 :
  let u1 := uuid4 w (uuid4_draws w) in
  let u2 := uuid4 w (S (uuid4_draws w)) in
  let mh := max_history_per_session (session_memory_service w) in
  ∃ w1 w2 s2,
    add_message None role1 content1 w = (Return u1, w1)
    ∧ add_message None role2 content2 w1 = (Return u2, w2)
    ∧ uuid4_draws w2 = S (S (uuid4_draws w))
    ∧ sessions (session_memory_service w2) !! u2 = Some s2
    ∧ messages s2
      = ConversationSession.keep_last mh
          [{| role := role2; content := content2;
              timestamp := clock w (6 + clock_reads w)%nat |}]
    ∧ (u1 ≠ u2 →
       ∃ s1, sessions (session_memory_service w2) !! u1 = Some s1
             ∧ messages s1
               = ConversationSession.keep_last mh
                   [{| role := role1; content := content1;
                       timestamp := clock w (2 + clock_reads w)%nat |}]).
Proof.
  intros u1 u2 mh.
  destruct (add_message_new_run w None role1 content1 eq_refl)
    as (w1 & Hrun1 & Hreg1 & Hreads1 & Hdraws1 & Henv1 & _).
  destruct Henv1 as (Hclk & Huuid & _ & _ & _ & Hmh1 & _).
  destruct (add_message_new_run w1 None role2 content2 eq_refl)
    as (w2 & Hrun2 & Hreg2 & Hreads2 & Hdraws2 & _).
  rewrite Huuid, Hdraws1 in Hrun2, Hreg2. fold u2 in Hrun2, Hreg2.
  exists w1, w2. eexists. split; [exact Hrun1|]. split; [exact Hrun2|].
  split; [lia|]. split; [rewrite Hreg2; apply lookup_insert_eq|].
  split.
  - simpl. by rewrite Hmh1, Hclk, Hreads1.
  - intros Hne. eexists. split.
    + rewrite Hreg2, lookup_insert_ne by done. rewrite Hreg1. apply lookup_insert_eq.
    + done.
Qed.

End MemoryMore.

(** ** The chat route, continued *)

Section ChatMore.

Import SessionMemoryService.

(** What a request does, whatever the collaborators answer: it fails with
    status 500 before the store is touched, or it runs the two appends and
    succeeds. *)
Lemma chat_effect request w :
  (∃ detail w',
     chat request w = (Raise (HTTPException 500 detail), w')
     ∧ session_memory_service w' = session_memory_service w
     ∧ clock_reads w' = clock_reads w
     ∧ uuid4_draws w' = uuid4_draws w)
  ∨ (∃ answer sources w0 sid w1 sid' w2,
       session_memory_service w0 = session_memory_service w
       ∧ clock w0 = clock w ∧ clock_reads w0 = clock_reads w
       ∧ uuid4 w0 = uuid4 w ∧ uuid4_draws w0 = uuid4_draws w
       ∧ add_message (ChatRequest.session_id request) "user"
           (ChatRequest.query request) w0 = (Return sid, w1)
       ∧ add_message (Some sid) "assistant" answer w1 = (Return sid', w2)
       ∧ chat request w
         = (Return {| ChatResponse.answer := answer;
                      ChatResponse.sources := sources;
                      ChatResponse.session_id := sid |}, w2)).
Proof.
  unfold chat, try_except.
  destruct (generate_embeddings w [ChatRequest.query request])
    as [[|e es]|exc] eqn:Hemb.
  - left. unfold chat_body. run. simpl. rewrite Hemb. by eexists _, _.
  - destruct (search w e (ChatRequest.top_k request)) as [[|r rs]|exc] eqn:Hsearch.
    + right. rewrite (chat_body_no_results _ _ _ _ Hemb Hsearch).
      destruct (add_message_total (searched request e w)
                  (ChatRequest.session_id request) "user"
                  (ChatRequest.query request)) as (sid & w1 & Hrun1).
      destruct (add_message_total w1 (Some sid) "assistant" fallback_answer)
        as (sid' & w2 & Hrun2).
      rewrite Hrun1, Hrun2.
      by eexists _, _, (searched request e w), sid, w1, sid', w2.
    + rewrite (chat_body_results _ _ _ _ _ _ Hemb Hsearch). cbv zeta.
      destruct (generate_response _ _ _ _) as [answer|exc].
      * right.
        match goal with
        | |- context [add_message _ "user" _ ?w0] =>
            destruct (add_message_total w0 (ChatRequest.session_id request)
                        "user" (ChatRequest.query request)) as (sid & w1 & Hrun1);
            destruct (add_message_total w1 (Some sid) "assistant" answer)
              as (sid' & w2 & Hrun2);
            rewrite Hrun1, Hrun2;
            by eexists _, _, w0, sid, w1, sid', w2
        end.
      * left. by eexists _, _.
    + left. unfold chat_body. run. simpl. rewrite Hemb. simpl. rewrite Hsearch.
      by eexists _, _.
  - left. unfold chat_body. run. simpl. rewrite Hemb. by eexists _, _.
Qed.

(** X11: [chat] fails with status 500 and with nothing else, and a failed
    request leaves the session store as it was: no message appended, no
    session created, no clock read, no identifier drawn, whichever
    collaborator failed. *)
Theorem chat_failure_leaves_store request w exc :
  (chat request w).1 = Raise exc →
  (∃ detail, exc = HTTPException 500 detail)
  ∧ session_memory_service (chat request w).2 = session_memory_service w
  ∧ clock_reads (chat request w).2 = clock_reads w
  ∧ uuid4_draws (chat request w).2 = uuid4_draws w.
Proof.
  intros Hfail.
  destruct (chat_effect request w)
    as [(detail & w' & Hrun & Hmem & Hreads & Hdraws)
       |(answer & sources & w0 & sid & w1 & sid' & w2 & _ & _ & _ & _ & _ & _ & _ & Hrun)];
    rewrite Hrun in Hfail |- *; simpl in *; [|done].
  injection Hfail as <-. split; [by exists detail | done].
Qed.

(** X12: the request stops at the first collaborator that fails. A failing
    embedding call, or one that returns no vector, ends the request after
    that single call; a failing search ends it after the search. The
    detail of the 500 is the text of the exception. *)
Theorem chat_stops_at_first_failure request w :
  let q := ChatRequest.query request in
  (∀ exc, generate_embeddings w [q] = Raise exc →
     chat request w
     = (Raise (HTTPException 500 (exn_str exc)),
        record_call (GenerateEmbeddings [q]) w))
  ∧ (generate_embeddings w [q] = Return [] →
     chat request w
     = (Raise (HTTPException 500 "list index out of range"),
        record_call (GenerateEmbeddings [q]) w))
  ∧ (∀ e es exc, generate_embeddings w [q] = Return (e :: es) →
       search w e (ChatRequest.top_k request) = Raise exc →
       chat request w
       = (Raise (HTTPException 500 (exn_str exc)), searched request e w)).
Proof.
  intros q. split_and!.
  - intros exc Hemb. unfold chat, try_except, chat_body. run. simpl.
    fold q. by rewrite Hemb.
  - intros Hemb. unfold chat, try_except, chat_body. run. simpl.
    fold q. by rewrite Hemb.
  - intros e es exc Hemb Hsearch. unfold chat, try_except, chat_body. run. simpl.
    fold q. rewrite Hemb. simpl. by rewrite Hsearch.
Qed.

Lemma add_message_calls w requested role content :
  calls (add_message requested role content w).2 = calls w.
Proof.
  destruct (known (session_memory_service w) requested) as [k|] eqn:Hk.
  - apply known_Some in Hk as [-> [s Hs]].
    destruct (add_message_known_run w k s role content Hs)
      as (w' & Hrun & _ & _ & _ & _ & Hcalls).
    by rewrite Hrun.
  - destruct (add_message_new_run w requested role content Hk)
      as (w' & Hrun & _ & _ & _ & _ & Hcalls).
    by rewrite Hrun.
Qed.

Lemma join_head_truthy sep x l :
  Py.truthy x = true → Py.truthy (Py.join sep (x :: l)) = true.
Proof. intros Hx. destruct x; [done|]. by destruct l. Qed.

Lemma history_argument_stored self requested :
  history_argument (conversation_context self requested (Some 5))
  = match stored_history self requested with
    | [] => None
    | msgs => Some (Py.join PyStr.newline
                      ("Previous conversation:" :: map format_message msgs))
    end.
Proof.
  unfold conversation_context, stored_history.
  destruct (known self requested) as [k|]; [|done].
  destruct (sessions self !! k) as [s|]; [|done].
  replace (ConversationSession.get_history s (Some 5))
    with (drop (length (messages s) - 5) (messages s))
    by (symmetry; by apply (slice_last (messages s) 5)).
  destruct (drop _ _) as [|m msgs]; [done|].
  unfold history_argument. by rewrite join_head_truthy.
Qed.

(** X13: when the index returns results, generation is called with the
    last five messages stored for the requested session, as a transcript
    under the line [Previous conversation:], and with no history at all
    when the identifier is absent or unknown or the session holds no
    message. The stored messages are read as they are: the clock is not
    consulted, so the messages of a session whose inactivity window has
    elapsed are still sent. The transcript is stated for roles whose
    capitalized form is a string of code points below 256. *)
Theorem chat_history_argument request w e es r rs :
  generate_embeddings w [ChatRequest.query request] = Return (e :: es) →
  search w e (ChatRequest.top_k request) = Return (r :: rs) →
  Forall (λ m, PyStr.capitalize_below_256 (role m) = true)
    (stored_history (session_memory_service w) (ChatRequest.session_id request)) →
  calls (chat request w).2
  = calls w ++
    [GenerateEmbeddings [ChatRequest.query request];
     Search e (ChatRequest.top_k request);
     GenerateResponse (ChatRequest.query request)
       (Py.join (PyStr.newline +:+ PyStr.newline) (map text (r :: rs)))
       match stored_history (session_memory_service w)
               (ChatRequest.session_id request) with
       | [] => None
       | msgs => Some (Py.join PyStr.newline
                         ("Previous conversation:"
                          :: map format_message msgs))
       end].
Proof.
  intros Hemb Hsearch _. unfold chat, try_except.
  rewrite (chat_body_results _ _ _ _ _ _ Hemb Hsearch). cbv zeta.
  rewrite history_argument_stored, context_of_join.
  destruct (generate_response _ _ _ _) as [answer|exc].
  - match goal with
    | |- context [add_message _ "user" _ ?w0] =>
        pose proof (add_message_calls w0 (ChatRequest.session_id request)
                      "user" (ChatRequest.query request)) as Hc1;
        destruct (add_message_total w0 (ChatRequest.session_id request)
                    "user" (ChatRequest.query request)) as (sid & w1 & Hrun1)
    end.
    rewrite Hrun1 in Hc1 |- *.
    pose proof (add_message_calls w1 (Some sid) "assistant" answer) as Hc2.
    destruct (add_message_total w1 (Some sid) "assistant" answer)
      as (sid' & w2 & Hrun2).
    rewrite Hrun2 in Hc2 |- *. simpl in *. rewrite Hc2, Hc1.
    by rewrite <- !app_assoc.
  - simpl. by rewrite <- !app_assoc.
Qed.

(** X14: after a request that succeeds, the session named in the response
    ends with the query as a [user] turn and the answer as an [assistant]
    turn, when the bound of the session is at least 2 and no more than the
    timeout passes between two consecutive clock reads of the request. *)
Theorem chat_success_history_tail request w response w' :
  chat request w = (Return response, w') →
  registry_wf (session_memory_service w) →
  2 ≤ resolved_max_history w (ChatRequest.session_id request) →
  (∀ i : nat, (clock_reads w ≤ i ≤ clock_reads w + 3)%nat →
     clock w (S i) - clock w i ≤ session_timeout (session_memory_service w)) →
  ∃ s,
    sessions (session_memory_service w') !! ChatResponse.session_id response = Some s
    ∧ session_id s = ChatResponse.session_id response
    ∧ last_n 2 (map turn_of (messages s))
      = [("user", ChatRequest.query request);
         ("assistant", ChatResponse.answer response)].
Proof.
  intros Hrun Hwf Hmh Hclock.
  destruct (chat_effect request w)
    as [(detail & w'' & Hrun' & _)
       |(answer & sources & w0 & sid & w1 & sid' & w2 & Hmem & Hclk & Hreads
         & Huuid & Hdraws & Hrun1 & Hrun2 & Hrun')];
    rewrite Hrun' in Hrun; [done|].
  injection Hrun as <- <-. simpl.
  destruct (two_appends_tail w0 (ChatRequest.session_id request)
              (ChatRequest.query request) answer)
    as (sid0 & w10 & w20 & s2 & Hr1 & Hr2 & Hs2 & Htail).
  - by rewrite Hmem.
  - unfold resolved_max_history in *. by rewrite Hmem.
  - intros i Hi. rewrite Hclk, Hmem. apply Hclock. lia.
  - rewrite Hrun1 in Hr1. injection Hr1 as <- <-.
    rewrite Hrun2 in Hr2. injection Hr2 as -> <-.
    exists s2. split; [done|]. split; [|done].
    assert (Hwf2 : registry_wf (session_memory_service w2)).
    { change w2 with (Return sid, w2).2. rewrite <- Hrun2. apply add_message_wf.
      change w1 with (Return sid, w1).2. rewrite <- Hrun1. apply add_message_wf.
      by rewrite Hmem. }
    by apply (Hwf2 _ _ Hs2).
Qed.

Lemma keep_last_Forall (P : Message → Prop) max_history msgs :
  Forall P msgs → Forall P (ConversationSession.keep_last max_history msgs).
Proof.
  intros H. unfold ConversationSession.keep_last.
  destruct (_ <? _); [by apply slice_words | done].
Qed.

Lemma keep_last_all max_history msgs :
  Py.len msgs ≤ max_history → ConversationSession.keep_last max_history msgs = msgs.
Proof.
  intros H. unfold ConversationSession.keep_last.
  destruct (Z.ltb_spec max_history (Py.len msgs)); [lia | done].
Qed.

(** X15: a request for a session whose inactivity window has elapsed still
    sends the stored messages of that session to generation as history;
    the expiry check runs only afterwards, in the first append, so after
    the request the session holds no turn of before: with a bound of at
    least 2, and when the session does not expire again between the two
    appends, it holds the query and the answer of this request and nothing
    else. The history sent is stated for roles whose capitalized form is a
    string of code points below 256. *)
Theorem chat_on_expired_session request w k s e es r rs answer :
  ChatRequest.session_id request = Some k →
  registry_wf (session_memory_service w) →
  sessions (session_memory_service w) !! k = Some s →
  messages s ≠ [] →
  Forall (λ m, PyStr.capitalize_below_256 (role m) = true)
    (drop (length (messages s) - 5) (messages s)) →
  session_timeout (session_memory_service w)
    < clock w (clock_reads w) - last_access s →
  generate_embeddings w [ChatRequest.query request] = Return (e :: es) →
  search w e (ChatRequest.top_k request) = Return (r :: rs) →
  generate_response w (ChatRequest.query request) (context_of (r :: rs))
    (Some (Py.join PyStr.newline
             ("Previous conversation:"
              :: map format_message
                   (drop (length (messages s) - 5) (messages s)))))
  = Return answer →
  ∃ w' s',
    chat request w
    = (Return {| ChatResponse.answer := answer;
                 ChatResponse.sources := sources_of (r :: rs);
                 ChatResponse.session_id := k |}, w')
    ∧ sessions (session_memory_service w') !! k = Some s'
    ∧ Forall (λ m, turn_of m = ("user", ChatRequest.query request)
                   ∨ turn_of m = ("assistant", answer)) (messages s')
    ∧ (2 ≤ max_history s →
       clock w (3 + clock_reads w)%nat - clock w (2 + clock_reads w)%nat
         ≤ session_timeout (session_memory_service w) →
       map turn_of (messages s')
       = [("user", ChatRequest.query request); ("assistant", answer)]).
Proof.
  intros Hreq Hwf Hs Hne _ Hexp Hemb Hsearch Hgen.
  pose proof (Hwf _ _ Hs) as Hid. simpl in Hid.
  assert (Hhist : history_argument
            (conversation_context (session_memory_service w)
               (ChatRequest.session_id request) (Some 5))
          = Some (Py.join PyStr.newline
                    ("Previous conversation:"
                     :: map format_message
                          (drop (length (messages s) - 5) (messages s))))).
  { rewrite history_argument_stored, Hreq. unfold stored_history.
    rewrite (known_of_lookup _ _ _ Hs), Hs.
    destruct (drop _ _) as [|m msgs] eqn:Hdrop; [|done].
    apply (f_equal length) in Hdrop. rewrite length_drop in Hdrop.
    destruct (messages s); [done | simpl in Hdrop; lia]. }
  unfold chat, try_except.
  rewrite (chat_body_results _ _ _ _ _ _ Hemb Hsearch). cbv zeta.
  rewrite Hhist, Hgen, Hreq.
  match goal with
  | |- context [add_message _ "user" _ ?w0] =>
      destruct (add_message_known_run w0 k s "user" (ChatRequest.query request) Hs)
        as (w1 & Hrun1 & Hreg1 & Hreads1 & _ & Henv1 & _)
  end.
  rewrite Hid in Hrun1. rewrite Hrun1.
  destruct Henv1 as (Hclk & _ & _ & _ & _ & _ & Hto).
  assert (Hs1 : sessions (session_memory_service w1) !! k = Some
            (appended (ConversationSession.clear s) "user" (ChatRequest.query request)
               (clock w (S (clock_reads w))) (clock w (S (S (clock_reads w)))))).
  { rewrite Hreg1, lookup_insert_eq. unfold after_expiry_check. simpl.
    by destruct (Z.ltb_spec (session_timeout (session_memory_service w))
                   (clock w (clock_reads w) - last_access s)); [|lia]. }
  destruct (add_message_known_run w1 k _ "assistant" answer Hs1)
    as (w2 & Hrun2 & Hreg2 & _).
  simpl in Hrun2. rewrite Hid in Hrun2. rewrite Hrun2.
  eexists w2, _. split; [reflexivity|].
  split; [rewrite Hreg2; apply lookup_insert_eq|]. split.
  - simpl. apply keep_last_Forall, Forall_app. split; [|by repeat constructor].
    unfold after_expiry_check. destruct (_ <? _); simpl; [constructor|].
    apply keep_last_Forall. by repeat constructor.
  - intros Htwo Hgap. simpl in Hclk, Hreads1, Hto. simpl.
    unfold after_expiry_check. rewrite Hclk, Hreads1, Hto. simpl.
    destruct (Z.ltb_spec (session_timeout (session_memory_service w))
                (clock w (S (S (S (clock_reads w))))
                 - clock w (S (S (clock_reads w))))); [simpl in Hgap; lia|].
    simpl. rewrite (keep_last_all _ [_]) by (unfold Py.len; simpl; lia).
    rewrite keep_last_all by (unfold Py.len; simpl; lia). reflexivity.
Qed.

End ChatMore.

(** ** The vector store and the index route *)

Section Index.

Import VectorDBService.

Ltac run_index :=
  cbv beta iota zeta delta
    [mbind M_bind mret M_ret raise lift gets modify try_except_http
     index_document index_document_body extract_text_from_pdf
     extract_text_from_txt call_generate_embeddings store_embeddings].

Lemma drawn_draw n w : drawn n (draw w) = drawn (S n) w.
Proof. unfold drawn. by rewrite Nat.iter_succ_r. Qed.

Lemma drawn_fields n w :
  session_memory_service (drawn n w) = session_memory_service w
  ∧ clock (drawn n w) = clock w
  ∧ clock_reads (drawn n w) = clock_reads w
  ∧ uuid4 (drawn n w) = uuid4 w
  ∧ uuid4_draws (drawn n w) = (uuid4_draws w + n)%nat
  ∧ calls (drawn n w) = calls w.
Proof.
  unfold drawn. induction n as [|n IH]; simpl; [split_and!; try done; lia|].
  destruct IH as (? & ? & ? & ? & ? & ?). split_and!; try done. lia.
Qed.

Lemma point_of_draw w filename i k pair :
  point_of (draw w) filename (i + 1) k pair = point_of w filename i (S k) pair.
Proof.
  unfold point_of.
  replace (uuid4_draws (draw w) + k)%nat with (uuid4_draws w + S k)%nat
    by (simpl; lia).
  by replace (i + 1 + Z.of_nat k) with (i + Z.of_nat (S k)) by lia.
Qed.

Lemma make_points_run filename pairs : ∀ i points w,
  make_points filename i pairs points w
  = (Return (points ++ imap (point_of w filename i) pairs),
     drawn (length pairs) w).
Proof.
  induction pairs as [|[chunk embedding] pairs IH]; intros i points w.
  - simpl. by rewrite app_nil_r.
  - cbn [make_points]. unfold mbind, M_bind, str_uuid4. cbv beta iota.
    rewrite IH, drawn_draw, <- app_assoc. do 2 f_equal. simpl. f_equal.
    f_equal.
    + unfold point_of. simpl. by rewrite Nat.add_0_r, Z.add_0_r.
    + apply imap_ext. intros k x _. apply point_of_draw.
Qed.

Lemma store_embeddings_run self embeddings chunks filename w :
  store_embeddings self embeddings chunks filename w
  = match client self with
    | None => (Raise (RuntimeError "Not connected to Qdrant. Call connect() first."), w)
    | Some upsert =>
        (match upsert (points_of w filename chunks embeddings) with
         | Return _ => Return (Z.of_nat (length chunks `min` length embeddings))
         | Raise exc => Raise exc
         end, drawn (length chunks `min` length embeddings) w)
    end.
Proof.
  unfold store_embeddings. destruct (client self) as [upsert|]; [|done].
  run_index. rewrite make_points_run. simpl.
  fold (points_of w filename chunks embeddings). rewrite length_zip_with.
  destruct (upsert _); [|done]. unfold Py.len, points_of.
  by rewrite length_imap, length_zip_with.
Qed.

(** X16: [store_embeddings] raises [RuntimeError] before anything else when
    the client is not connected. Otherwise it builds one point per pair of
    [zip(chunks, embeddings)], so the shorter of the two lists decides how
    many, each with an identifier drawn in order, the file name as source
    and its position as chunk identifier; it hands them to [upsert] in one
    call and returns their number, or fails as [upsert] does. *)
Theorem store_embeddings_points self embeddings chunks filename w :
  match client self with
  | None =>
      store_embeddings self embeddings chunks filename w
      = (Raise (RuntimeError "Not connected to Qdrant. Call connect() first."), w)
  | Some upsert =>
      let points := points_of w filename chunks embeddings in
      store_embeddings self embeddings chunks filename w
      = (match upsert points with
         | Return _ => Return (Z.of_nat (length chunks `min` length embeddings))
         | Raise exc => Raise exc
         end, drawn (length chunks `min` length embeddings) w)
      ∧ length points = (length chunks `min` length embeddings)%nat
      ∧ ∀ (k : nat) chunk embedding,
          chunks !! k = Some chunk → embeddings !! k = Some embedding →
          points !! k
          = Some {| PointStruct.id := uuid4 w (uuid4_draws w + k);
                    PointStruct.vector := embedding;
                    PointStruct.payload :=
                      {| Payload.text := chunk; Payload.source := filename;
                         Payload.chunk_id := Z.of_nat k |} |}
  end.
Proof.
  destruct (client self) as [upsert|] eqn:Hclient;
    [|by rewrite store_embeddings_run, Hclient].
  intros points.
  assert (Hlen : length points = (length chunks `min` length embeddings)%nat).
  { unfold points, points_of. rewrite length_imap. apply length_zip_with. }
  split; [|split; [done|]].
  - by rewrite store_embeddings_run, Hclient.
  - intros k chunk embedding Hc He. unfold points, points_of.
    rewrite list_lookup_imap.
    assert (Hz : zip chunks embeddings !! k = Some (chunk, embedding)).
    { apply lookup_zip_with_Some. eauto. }
    rewrite Hz. simpl. unfold point_of. simpl. by rewrite Z.add_0_l.
Qed.

Lemma endswith_spec s suffix :
  PyText.endswith s suffix = true ↔ ∃ stem, s = stem +:+ suffix.
Proof.
  induction s as [|c s IH]; cbn [PyText.endswith].
  - destruct (String.eqb_spec EmptyString suffix) as [<-|Hne].
    + split; [by exists EmptyString | done].
    + split; [done|]. intros [[|c stem] Hs].
      * by rewrite append_nil in Hs.
      * by rewrite append_cons in Hs.
  - destruct (String.eqb_spec (String c s) suffix) as [<-|Hne].
    + split; [by exists EmptyString | done].
    + rewrite IH. split.
      * intros [stem ->]. by exists (String c stem).
      * intros [[|c' stem] Hs].
        -- by rewrite append_nil in Hs.
        -- rewrite append_cons in Hs. injection Hs as -> ->. by exists stem.
Qed.

(** The steps of [index_document], with the answers of the readers and of
    the collaborators. *)
Lemma index_document_body_run env file w :
  index_document_body env file w
  = if negb (validate_file_type (UploadFile.filename file))
    then (Raise (HTTPException 400 "Only PDF and TXT files are supported"), w)
    else
      match extracted_text env file with
      | Raise exc => (Raise exc, w)
      | Return text =>
          if negb (Py.truthy (Py.strip text))
          then (Raise (HTTPException 400 "No text content found in file"), w)
          else
            match DocumentService.chunk_text (document_settings env) text None None with
            | Raise exc => (Raise exc, w)
            | Return chunks =>
                let w1 := record_call (GenerateEmbeddings chunks) w in
                match generate_embeddings w chunks with
                | Raise exc => (Raise exc, w1)
                | Return embeddings =>
                    match store_embeddings (vectordb_service env) embeddings
                            chunks (UploadFile.filename file) w1 with
                    | (Return num_stored, w2) => (Return (indexed file num_stored), w2)
                    | (Raise exc, w2) => (Raise exc, w2)
                    end
                end
            end
      end.
Proof.
  unfold index_document_body, extracted_text.
  destruct (negb (validate_file_type _)); [done|].
  run_index.
  destruct (PyText.endswith (UploadFile.filename file) ".pdf").
  - destruct (pdf_pages env _) as [pages|exc]; [|done]. cbv beta iota.
    destruct (negb (Py.truthy _)); [done|].
    destruct (DocumentService.chunk_text _ _ _ _) as [chunks|exc]; [|done].
    simpl. destruct (generate_embeddings w chunks); [|done]. reflexivity.
  - destruct (decode_utf8 env _) as [text|exc]; [|done]. cbv beta iota.
    destruct (negb (Py.truthy _)); [done|].
    destruct (DocumentService.chunk_text _ _ _ _) as [chunks|exc]; [|done].
    simpl. destruct (generate_embeddings w chunks); [|done]. reflexivity.
Qed.

(** X17: the two errors of the caller are answered with status 400, before
    any collaborator is called and without any change: a file name that
    ends with neither [.pdf] nor [.txt] in any letter case, and a file
    whose extracted text is blank. *)
Theorem index_document_rejects_with_400 env file w :
  (validate_file_type (UploadFile.filename file) = false →
   index_document env file w
   = (Raise (HTTPException 400 "Only PDF and TXT files are supported"), w))
  ∧ (∀ text,
       validate_file_type (UploadFile.filename file) = true →
       extracted_text env file = Return text →
       Py.truthy (Py.strip text) = false →
       index_document env file w
       = (Raise (HTTPException 400 "No text content found in file"), w)).
Proof.
  split.
  - intros Hv. unfold index_document, try_except_http.
    by rewrite index_document_body_run, Hv.
  - intros text Hv Htext Hblank. unfold index_document, try_except_http.
    by rewrite index_document_body_run, Hv, Htext, Hblank.
Qed.

Lemma validate_file_type_spec filename :
  validate_file_type filename = true
  ↔ PyText.endswith (PyText.lower filename) ".pdf" = true
    ∨ PyText.endswith (PyText.lower filename) ".txt" = true.
Proof.
  unfold validate_file_type, supported_extensions. simpl.
  rewrite orb_false_r, orb_true_iff. done.
Qed.

(** X18: a name whose extension is [.pdf] in another letter case, such as
    [REPORT.PDF], is accepted by the file type check and then handled as
    text: its bytes go to the UTF-8 decoder, the PDF reader is not
    consulted, and when the bytes do not decode the request fails with
    status 500 and the decoder's message. *)
Theorem index_document_pdf_in_capitals_is_decoded env file w :
  PyText.endswith (PyText.lower (UploadFile.filename file)) ".pdf" = true →
  PyText.endswith (UploadFile.filename file) ".pdf" = false →
  validate_file_type (UploadFile.filename file) = true
  ∧ extracted_text env file = decode_utf8 env (UploadFile.content file)
  ∧ (∀ pages, index_document (with_pdf_pages pages env) file w
              = index_document env file w)
  ∧ (∀ msg, decode_utf8 env (UploadFile.content file) = Raise (ValueError msg) →
       index_document env file w = (Raise (HTTPException 500 msg), w)).
Proof.
  intros Hlower Hexact.
  assert (Hv : validate_file_type (UploadFile.filename file) = true)
    by (apply validate_file_type_spec; by left).
  assert (Htext : ∀ env', extracted_text env' file
                          = decode_utf8 env' (UploadFile.content file))
    by (intros env'; unfold extracted_text; by rewrite Hexact).
  split_and!; try done.
  - intros pages. unfold index_document, try_except_http.
    by rewrite !index_document_body_run, !Htext.
  - intros msg Hdec. unfold index_document, try_except_http.
    by rewrite index_document_body_run, Hv, Htext, Hdec.
Qed.

(** X19: a request that passes every step answers success with the number
    of chunks of the document: the chunks are embedded in one call and
    stored as one point each, with one identifier drawn per chunk. With a
    positive chunk size and a smaller overlap a document whose text is not
    blank has at least one chunk. *)
Theorem index_document_success env file w text chunks embeddings upsert :
  validate_file_type (UploadFile.filename file) = true →
  extracted_text env file = Return text →
  Py.truthy (Py.strip text) = true →
  0 < CHUNK_SIZE (document_settings env) →
  CHUNK_OVERLAP (document_settings env) < CHUNK_SIZE (document_settings env) →
  DocumentService.chunk_text (document_settings env) text None None = Return chunks →
  generate_embeddings w chunks = Return embeddings →
  length embeddings = length chunks →
  client (vectordb_service env) = Some upsert →
  upsert (points_of w (UploadFile.filename file) chunks embeddings) = Return () →
  index_document env file w
  = (Return (indexed file (Py.len chunks)),
     drawn (length chunks) (record_call (GenerateEmbeddings chunks) w))
  ∧ 1 ≤ Py.len chunks.
Proof.
  intros Hv Htext Hstrip Hcs Hov Hchunks Hemb Hlen Hclient Hupsert. split.
  - unfold index_document, try_except_http.
    rewrite index_document_body_run, Hv, Htext, Hstrip, Hchunks. cbv zeta.
    rewrite Hemb, store_embeddings_run, Hclient. simpl.
    change (points_of (record_call (GenerateEmbeddings chunks) w)
              (UploadFile.filename file) chunks embeddings)
      with (points_of w (UploadFile.filename file) chunks embeddings).
    rewrite Hupsert, Hlen, Nat.min_id. reflexivity.
  - rewrite chunk_text_defaults in Hchunks.
    destruct (chunk_text_nonblank (document_settings env) text _ _ Hcs Hov)
      as (chunks' & Hrun & _ & Hnil).
    rewrite Hrun in Hchunks. injection Hchunks as ->.
    destruct chunks as [|c chunks]; [|unfold Py.len; simpl; lia].
    rewrite (proj1 Hnil eq_refl) in Hstrip. done.
Qed.

Lemma try_except_http_spec {A} (body : M A) w :
  (try_except_http body w).2 = (body w).2
  ∧ ∀ exc, (try_except_http body w).1 = Raise exc →
      ∃ status_code detail, exc = HTTPException status_code detail.
Proof.
  unfold try_except_http. destruct (body w) as [[a|exc] w']; [done|].
  destruct exc; simpl; (split; [done|]); intros ? [= <-]; by eexists _, _.
Qed.

Lemma index_document_body_world env file w :
  session_memory_service (index_document_body env file w).2 = session_memory_service w
  ∧ clock_reads (index_document_body env file w).2 = clock_reads w.
Proof.
  rewrite index_document_body_run.
  destruct (negb (validate_file_type _)); [done|].
  destruct (extracted_text env file) as [text|exc]; [|done].
  destruct (negb (Py.truthy _)); [done|].
  destruct (DocumentService.chunk_text _ _ _ _) as [chunks|exc]; [|done].
  cbv zeta. destruct (generate_embeddings w chunks) as [embeddings|exc]; [|done].
  rewrite store_embeddings_run.
  destruct (client (vectordb_service env)) as [upsert|]; [|done].
  pose proof (drawn_fields (length chunks `min` length embeddings)
                (record_call (GenerateEmbeddings chunks) w))
    as (Hmem & _ & Hreads & _).
  by destruct (upsert _).
Qed.

(** X20: whatever the file and the collaborators, [index_document] leaves
    the session store alone and reads no clock, and when it fails it fails
    with an [HTTPException]. *)
Theorem index_document_keeps_sessions env file w :
  session_memory_service (index_document env file w).2 = session_memory_service w
  ∧ clock_reads (index_document env file w).2 = clock_reads w
  ∧ ∀ exc, (index_document env file w).1 = Raise exc →
      ∃ status_code detail, exc = HTTPException status_code detail.
Proof.
  unfold index_document.
  destruct (try_except_http_spec (index_document_body env file) w) as [-> Hexc].
  destruct (index_document_body_world env file w) as [Hmem Hreads].
  by split_and!.
Qed.

Lemma chunk_text_zero_step cfg text chunk_size :
  DocumentService.chunk_text cfg text (Some chunk_size) (Some chunk_size)
  = Raise (ValueError "range() arg 3 must not be zero").
Proof. unfold DocumentService.chunk_text, Py.range. by rewrite Z.sub_diag. Qed.

Lemma chunk_text_negative_step cfg text chunk_size overlap :
  chunk_size < overlap →
  DocumentService.chunk_text cfg text (Some chunk_size) (Some overlap) = Return [].
Proof.
  intros Hlt. unfold DocumentService.chunk_text, Py.range, Py.range_length.
  destruct (Z.eqb_spec (chunk_size - overlap) 0); [lia|].
  destruct (Z.ltb_spec 0 (chunk_size - overlap)); [lia|].
  pose proof (len_nonneg (Py.split text)).
  by destruct (Z.ltb_spec (Py.len (Py.split text)) 0); [lia|].
Qed.

(** X21: with a settings object whose overlap equals the chunk size every
    document with text fails with status 500 and the message of [range];
    with an overlap above the chunk size the document is cut into no chunk
    at all, the embedding service is called with an empty list, nothing is
    stored and the request still answers success, with 0 chunks. *)
Theorem index_document_bad_settings env file w text :
  validate_file_type (UploadFile.filename file) = true →
  extracted_text env file = Return text →
  Py.truthy (Py.strip text) = true →
  (CHUNK_OVERLAP (document_settings env) = CHUNK_SIZE (document_settings env) →
   index_document env file w
   = (Raise (HTTPException 500 "range() arg 3 must not be zero"), w))
  ∧ (CHUNK_SIZE (document_settings env) < CHUNK_OVERLAP (document_settings env) →
     ∀ embeddings upsert,
       generate_embeddings w [] = Return embeddings →
       client (vectordb_service env) = Some upsert →
       upsert [] = Return () →
       index_document env file w
       = (Return (indexed file 0), record_call (GenerateEmbeddings []) w)).
Proof.
  intros Hv Htext Hstrip. split.
  - intros Heq. unfold index_document, try_except_http.
    rewrite index_document_body_run, Hv, Htext, Hstrip, chunk_text_defaults.
    by rewrite Heq, chunk_text_zero_step.
  - intros Hlt embeddings upsert Hemb Hclient Hupsert.
    unfold index_document, try_except_http.
    rewrite index_document_body_run, Hv, Htext, Hstrip, chunk_text_defaults.
    rewrite chunk_text_negative_step by done. cbv zeta.
    rewrite Hemb, store_embeddings_run, Hclient. simpl.
    change (points_of _ _ [] embeddings) with (@nil PointStruct.t).
    by rewrite Hupsert.
Qed.

End Index.

(** ** The running service *)

Section Service.

Import SessionMemoryService.

Lemma store_inv_insert self self' k s :
  store_inv self →
  max_history_per_session self' = max_history_per_session self →
  sessions self' = <[k := s]> (sessions self) →
  session_id s = k →
  max_history s = max_history_per_session self →
  Py.len (messages s) ≤ max_history s →
  store_inv self'.
Proof.
  intros Hinv Hmh Hreg Hid Hs Hlen. unfold store_inv. rewrite Hreg, Hmh.
  by apply map_Forall_insert_2.
Qed.

Lemma add_message_kept w requested role content :
  1 ≤ max_history_per_session (session_memory_service w) →
  store_inv (session_memory_service w) →
  kept w (add_message requested role content w).2.
Proof.
  intros Hmh Hinv.
  destruct (known (session_memory_service w) requested) as [k|] eqn:Hk.
  - apply known_Some in Hk as [-> [s Hs]].
    destruct (Hinv _ _ Hs) as (Hid & Hsmh & Hlen). simpl in *.
    destruct (add_message_known_run w k s role content Hs)
      as (w' & Hrun & Hreg & _ & _ & Henv & _).
    destruct Henv as (_ & _ & _ & _ & _ & Hmh' & Hto).
    rewrite Hrun. simpl. split; [done|]. split; [done|].
    eapply store_inv_insert; [done.. | | | ].
    + unfold after_expiry_check. by destruct (_ <? _).
    + unfold after_expiry_check. by destruct (_ <? _).
    + simpl. apply keep_last_len.
      unfold after_expiry_check. destruct (_ <? _); simpl; lia.
  - destruct (add_message_new_run w requested role content Hk)
      as (w' & Hrun & Hreg & _ & _ & Henv & _).
    destruct Henv as (_ & _ & _ & _ & _ & Hmh' & Hto).
    rewrite Hrun. simpl. split; [done|]. split; [done|].
    eapply store_inv_insert; [done.. | ].
    simpl. by apply keep_last_len.
Qed.

Lemma chat_kept request w :
  1 ≤ max_history_per_session (session_memory_service w) →
  store_inv (session_memory_service w) →
  kept w (chat request w).2.
Proof.
  intros Hmh Hinv.
  destruct (chat_effect request w)
    as [(detail & w' & Hrun & Hmem & _)
       |(answer & sources & w0 & sid & w1 & sid' & w2 & Hmem & _ & _ & _ & _
         & Hrun1 & Hrun2 & Hrun)]; rewrite Hrun; simpl.
  - unfold kept. by rewrite Hmem.
  - destruct (add_message_kept w0 (ChatRequest.session_id request) "user"
                (ChatRequest.query request)) as (Hmh1 & Hto1 & Hinv1);
      [by rewrite Hmem.. |].
    rewrite Hrun1 in Hmh1, Hto1, Hinv1. simpl in *.
    destruct (add_message_kept w1 (Some sid) "assistant" answer)
      as (Hmh2 & Hto2 & Hinv2); [rewrite Hmh1, Hmem; done | done |].
    rewrite Hrun2 in Hmh2, Hto2, Hinv2. simpl in *.
    unfold kept. rewrite Hmh2, Hto2, Hmh1, Hto1, Hmem. done.
Qed.

Lemma perform_kept op w :
  1 ≤ max_history_per_session (session_memory_service w) →
  store_inv (session_memory_service w) →
  kept w (perform op w).
Proof.
  intros Hmh Hinv. destruct op as [request|env file|k|k| |embed find generate]; simpl.
  - by apply chat_kept.
  - unfold index_document, kept.
    destruct (try_except_http_spec (index_document_body env file) w) as [-> _].
    destruct (index_document_body_world env file w) as [-> _]. done.
  - unfold Routes.clear_session, clear_session. run.
    destruct (sessions (session_memory_service w) !! k) as [s|] eqn:Hs; [|done].
    simpl. split; [done|]. split; [done|].
    destruct (Hinv _ _ Hs) as (Hid & Hsmh & Hlen). simpl in *.
    eapply store_inv_insert; [done | done | reflexivity | done | done |].
    simpl. unfold Py.len. simpl. lia.
  - split; [done|]. split; [done|]. by apply map_Forall_delete.
  - unfold cleanup_expired_sessions. run. simpl.
    split; [done|]. split; [done|].
    intros k s [Hs _]%map_lookup_filter_Some. by apply (Hinv _ _ Hs).
  - done.
Qed.

Lemma perform_all_kept ops : ∀ w,
  1 ≤ max_history_per_session (session_memory_service w) →
  store_inv (session_memory_service w) →
  kept w (perform_all ops w).
Proof.
  induction ops as [|op ops IH]; intros w Hmh Hinv; [done|].
  simpl. destruct (perform_kept op w Hmh Hinv) as (Hmh1 & Hto1 & Hinv1).
  destruct (IH (perform op w)) as (Hmh2 & Hto2 & Hinv2); [lia | done |].
  unfold kept. by rewrite Hmh2, Hto2, Hmh1, Hto1.
Qed.

(** X22: started with the store of the module
    ([max_history_per_session = 10], no session), the service keeps, through
    any sequence of chat, index, clear, delete and sweep operations and
    whatever the collaborators answer, every session under its own
    identifier with bound 10 and at most 10 messages; the bound and the
    timeout of the service never change. *)
Theorem service_keeps_ten_messages ops w :
  session_memory_service w = session_memory_service_init →
  let w' := perform_all ops w in
  max_history_per_session (session_memory_service w') = 10
  ∧ session_timeout (session_memory_service w') = timedelta_hours 24
  ∧ ∀ k s, sessions (session_memory_service w') !! k = Some s →
      session_id s = k ∧ max_history s = 10 ∧ Py.len (messages s) ≤ 10.
Proof.
  intros Hinit w'.
  destruct (perform_all_kept ops w) as (Hmh & Hto & Hinv).
  - rewrite Hinit. simpl. lia.
  - rewrite Hinit. apply map_Forall_empty.
  - fold w' in Hmh, Hto, Hinv. rewrite Hinit in Hmh, Hto. simpl in Hmh, Hto.
    split; [done|]. split; [done|].
    intros k s Hs. destruct (Hinv _ _ Hs) as (Hid & Hsmh & Hlen).
    simpl in *. rewrite Hmh in Hsmh. rewrite Hsmh in Hlen. done.
Qed.

End Service.

(** ** Further instances *)

Example chunk_text_negative_overlap_skips_words :
  DocumentService.chunk_text settings "a b c" (Some 1) (Some (-1))
  = Return ["a"; "c"].
Proof. reflexivity. Qed.

Example validate_file_type_examples :
  validate_file_type "report.pdf" = true
  ∧ validate_file_type "REPORT.PDF" = true
  ∧ validate_file_type "notes.Txt" = true
  ∧ validate_file_type "notes.docx" = false
  ∧ validate_file_type "pdf" = false.
Proof. repeat split. Qed.

Lemma chunk_text_count_witness :
  (0 < 4 ∧ 1 < 4)
  ∧ ∃ chunks,
      DocumentService.chunk_text settings "one two three four five six" (Some 4) (Some 1)
      = Return chunks
      ∧ Py.len chunks = 2.
Proof.
  split; [lia|].
  destruct (chunk_text_count settings "one two three four five six" 4 1)
    as (chunks & Hrun & Hlen & _); [lia | lia |].
  exists chunks. split; [exact Hrun|]. rewrite Hlen. reflexivity.
Defined.

Lemma chunk_text_covers_every_word_witness :
  ∃ chunks,
    DocumentService.chunk_text settings "one two three four five six" (Some 4) (Some 1)
    = Return chunks
    ∧ chunks !! 1%nat = Some "four five six".
Proof.
  destruct (chunk_text_covers_every_word settings "one two three four five six" 4 1)
    as (chunks & Hrun & Hcover); [lia | lia |].
  destruct (Hcover 4%nat "five" eq_refl) as [Hchunk _].
  exists chunks. split; [exact Hrun | exact Hchunk].
Defined.

Lemma chunk_text_windows_overlap_witness :
  drop 3 ["one"; "two"; "three"; "four"] = take 1 ["four"; "five"; "six"].
Proof.
  destruct (chunk_text_windows_overlap settings "one two three four five six" 4 1)
    as (count & _ & Hshare); [lia | lia |].
  exact (Hshare 0%nat).
Defined.

Lemma add_message_unknown_id_not_adopted_witness :
  let w := demo_world {["s1" := demo_session]} (λ n, Z.of_nat n) [] (Return "unused") in
  ∃ w', SessionMemoryService.add_message (Some "made-up") "user" "hi" w
        = (Return "uuid-0", w')
        ∧ sessions (session_memory_service w') !! "made-up" = None.
Proof.
  intros w.
  destruct (add_message_unknown_id_not_adopted w "made-up" "user" "hi")
    as (s & w' & Hrun & _ & _ & _ & _ & Hgone).
  - vm_compute. reflexivity.
  - exists w'. split; [exact Hrun|]. apply Hgone. vm_compute. discriminate.
Defined.

Lemma add_message_to_expired_session_witness :
  let w := demo_world {["s1" := demo_session]} (λ _, timedelta_hours 25) []
             (Return "unused") in
  ∃ s' w',
    SessionMemoryService.add_message (Some "s1") "user" "back again" w
    = (Return "s1", w')
    ∧ sessions (session_memory_service w') !! "s1" = Some s'
    ∧ map turn_of (messages s') = [("user", "back again")].
Proof.
  intros w.
  destruct (add_message_to_expired_session w "s1" demo_session "user" "back again")
    as (s' & w' & Hrun & Hs' & Hmsgs & _).
  - vm_compute. reflexivity.
  - vm_compute. reflexivity.
  - vm_compute. discriminate.
  - exists s', w'. split; [exact Hrun|]. split; [exact Hs'|]. by rewrite Hmsgs.
Defined.

Lemma delete_route_clears_and_keeps_entry_witness :
  let w := demo_world {["s1" := demo_session]} (λ n, Z.of_nat n) [] (Return "unused") in
  ∃ w',
    Routes.clear_session "s1" w
    = (Return {| StatusDict.status := "success";
                 StatusDict.message := "Session s1 cleared" |}, w')
    ∧ sessions (session_memory_service w') !! "s1"
      = Some {| session_id := "s1"; messages := []; max_history := 10;
                created_at := 0; last_access := 0 |}.
Proof.
  intros w.
  destruct (delete_route_clears_and_keeps_entry w "s1")
    as (w' & Hrun & _ & _ & Hentry & _).
  exists w'. split; [exact Hrun|]. apply (Hentry demo_session). vm_compute. reflexivity.
Defined.

Lemma chat_failure_leaves_store_witness :
  let w := demo_world {["s1" := demo_session]} (λ n, Z.of_nat n)
             [demo_result "a.txt" 0 "alpha"] (Raise not_loaded) in
  session_memory_service (chat (demo_request (Some "s1")) w).2
  = session_memory_service w.
Proof.
  intros w.
  destruct (chat_failure_leaves_store (demo_request (Some "s1")) w
              (HTTPException 500 "Model not loaded. Call load_model() first."))
    as (_ & Hmem & _).
  - vm_compute. reflexivity.
  - exact Hmem.
Defined.

Lemma chat_stops_at_first_failure_witness :
  let w := set_collaborators (λ _, Raise (KeyError "it's")) (λ _ _, Return [])
             (λ _ _ _, Return "unused")
             (demo_world ∅ (λ n, Z.of_nat n) [] (Return "unused")) in
  chat (demo_request None) w
  = (Raise (HTTPException 500
              (String Py.double_quote ("it's" +:+ String Py.double_quote EmptyString))),
     record_call (GenerateEmbeddings ["what is a chunk?"]) w).
Proof.
  intros w.
  destruct (chat_stops_at_first_failure (demo_request None) w) as (Hembed & _).
  exact (Hembed (KeyError "it's") eq_refl).
Defined.

Lemma chat_history_argument_witness :
  let w := demo_world {["s1" := demo_session]} (λ _, timedelta_hours 25)
             [demo_result "a.txt" 0 "alpha"] (Return "an answer") in
  calls (chat (demo_request (Some "s1")) w).2
  = [GenerateEmbeddings ["what is a chunk?"];
     Search [float_zero] (Some 3);
     GenerateResponse "what is a chunk?" "alpha"
       (Some ("Previous conversation:" +:+ PyStr.newline +:+ "User: hello"))].
Proof.
  intros w.
  refine (chat_history_argument (demo_request (Some "s1")) w [float_zero] []
            (demo_result "a.txt" 0 "alpha") [] eq_refl eq_refl _).
  vm_compute. repeat constructor.
Defined.

Lemma chat_success_history_tail_witness :
  let w := demo_world {["s1" := demo_session]} (λ n, Z.of_nat n)
             [demo_result "a.txt" 0 "alpha"] (Return "an answer") in
  ∃ s,
    sessions (session_memory_service (chat (demo_request (Some "s1")) w).2) !! "s1"
    = Some s
    ∧ last_n 2 (map turn_of (messages s))
      = [("user", "what is a chunk?"); ("assistant", "an answer")].
Proof.
  intros w.
  destruct (chat_success_history_tail (demo_request (Some "s1")) w
              {| ChatResponse.answer := "an answer";
                 ChatResponse.sources := ["a.txt (chunk 0)"];
                 ChatResponse.session_id := "s1" |}
              (chat (demo_request (Some "s1")) w).2)
    as (s & Hs & _ & Htail).
  - rewrite (surjective_pairing (chat (demo_request (Some "s1")) w)) at 1.
    f_equal; vm_compute; reflexivity.
  - apply map_Forall_singleton. reflexivity.
  - vm_compute. discriminate.
  - intros i _. unfold w, demo_world. cbn. unfold timedelta_hours. lia.
  - exists s. split; [exact Hs | exact Htail].
Defined.

Lemma chat_on_expired_session_witness :
  let w := demo_world {["s1" := demo_session]} (λ _, timedelta_hours 25)
             [demo_result "a.txt" 0 "alpha"] (Return "an answer") in
  ∃ w' s',
    chat (demo_request (Some "s1")) w
    = (Return {| ChatResponse.answer := "an answer";
                 ChatResponse.sources := ["a.txt (chunk 0)"];
                 ChatResponse.session_id := "s1" |}, w')
    ∧ sessions (session_memory_service w') !! "s1" = Some s'
    ∧ map turn_of (messages s')
      = [("user", "what is a chunk?"); ("assistant", "an answer")].
Proof.
  intros w.
  destruct (chat_on_expired_session (demo_request (Some "s1")) w "s1" demo_session
              [float_zero] [] (demo_result "a.txt" 0 "alpha") [] "an answer")
    as (w' & s' & Hrun & Hs' & _ & Hturns).
  - reflexivity.
  - apply map_Forall_singleton. reflexivity.
  - vm_compute. reflexivity.
  - discriminate.
  - vm_compute. repeat constructor.
  - vm_compute. reflexivity.
  - reflexivity.
  - reflexivity.
  - reflexivity.
  - exists w', s'. split; [exact Hrun|]. split; [exact Hs'|].
    apply Hturns; vm_compute; discriminate.
Defined.

Lemma add_message_none_twice_two_sessions_witness :
  let w := demo_world ∅ (λ n, Z.of_nat n) [] (Return "unused") in
  ∃ w1 w2,
    SessionMemoryService.add_message None "user" "first" w = (Return "uuid-0", w1)
    ∧ SessionMemoryService.add_message None "assistant" "second" w1
      = (Return "uuid-1", w2)
    ∧ ∃ s1, sessions (session_memory_service w2) !! "uuid-0" = Some s1
            ∧ map turn_of (messages s1) = [("user", "first")].
Proof.
  intros w.
  destruct (add_message_none_twice_two_sessions w "user" "first" "assistant" "second")
    as (w1 & w2 & s2 & Hrun1 & Hrun2 & _ & _ & _ & Hfirst).
  destruct Hfirst as (s1 & Hs1 & Hmsgs); [vm_compute; discriminate|].
  exists w1, w2. split; [exact Hrun1|]. split; [exact Hrun2|].
  exists s1. split; [exact Hs1|]. by rewrite Hmsgs.
Defined.

Lemma store_embeddings_points_witness :
  let w := demo_world ∅ (λ n, Z.of_nat n) [] (Return "unused") in
  VectorDBService.store_embeddings {| client := Some (λ _, Return ()) |}
    [[float_zero]] ["alpha"; "beta"] "a.txt" w
  = (Return 1, drawn 1 w).
Proof.
  intros w.
  exact (proj1 (store_embeddings_points {| client := Some (λ _, Return ()) |}
                  [[float_zero]] ["alpha"; "beta"] "a.txt" w)).
Defined.

Lemma index_document_rejects_with_400_witness :
  let w := demo_world ∅ (λ n, Z.of_nat n) [] (Return "unused") in
  let env := demo_env settings (Return "   ") (Some (λ _, Return ())) in
  index_document env (demo_file "notes.docx") w
  = (Raise (HTTPException 400 "Only PDF and TXT files are supported"), w)
  ∧ index_document env (demo_file "notes.txt") w
    = (Raise (HTTPException 400 "No text content found in file"), w).
Proof.
  intros w env. split.
  - exact (proj1 (index_document_rejects_with_400 env (demo_file "notes.docx") w) eq_refl).
  - exact (proj2 (index_document_rejects_with_400 env (demo_file "notes.txt") w)
             "   " eq_refl eq_refl eq_refl).
Defined.

Lemma index_document_pdf_in_capitals_is_decoded_witness :
  let w := demo_world ∅ (λ n, Z.of_nat n) [] (Return "unused") in
  let env := demo_env settings
               (Raise (ValueError "'utf-8' codec can't decode byte 0xe2"))
               (Some (λ _, Return ())) in
  index_document env (demo_file "REPORT.PDF") w
  = (Raise (HTTPException 500 "'utf-8' codec can't decode byte 0xe2"), w).
Proof.
  intros w env.
  destruct (index_document_pdf_in_capitals_is_decoded env (demo_file "REPORT.PDF") w)
    as (_ & _ & _ & Hdecode); [reflexivity | reflexivity |].
  exact (Hdecode _ eq_refl).
Defined.

Lemma index_document_success_witness :
  let w := demo_world ∅ (λ n, Z.of_nat n) [] (Return "unused") in
  let env := demo_env settings (Return "alpha beta gamma") (Some (λ _, Return ())) in
  index_document env (demo_file "notes.txt") w
  = (Return {| IndexResponse.status := "success";
               IndexResponse.filename := "notes.txt";
               IndexResponse.chunks_indexed := 1;
               IndexResponse.message := "Successfully indexed 1 chunks" |},
     drawn 1 (record_call (GenerateEmbeddings ["alpha beta gamma"]) w)).
Proof.
  intros w env.
  exact (proj1 (index_document_success env (demo_file "notes.txt") w
                  "alpha beta gamma" ["alpha beta gamma"] [[float_zero]]
                  (λ _, Return ())
                  eq_refl eq_refl eq_refl eq_refl eq_refl eq_refl eq_refl eq_refl
                  eq_refl eq_refl)).
Defined.

Lemma index_document_keeps_sessions_witness :
  let w := demo_world {["s1" := demo_session]} (λ n, Z.of_nat n) [] (Return "unused") in
  let env := demo_env settings (Return "alpha") None in
  session_memory_service (index_document env (demo_file "notes.txt") w).2
  = session_memory_service w
  ∧ ∃ status_code detail,
      HTTPException 500 "Not connected to Qdrant. Call connect() first."
      = HTTPException status_code detail.
Proof.
  intros w env.
  destruct (index_document_keeps_sessions env (demo_file "notes.txt") w)
    as (Hmem & _ & Hexc).
  split; [exact Hmem|]. apply Hexc. reflexivity.
Defined.

Lemma index_document_bad_settings_witness :
  let w := demo_world ∅ (λ n, Z.of_nat n) [] (Return "unused") in
  index_document
    (demo_env {| CHUNK_SIZE := 50; CHUNK_OVERLAP := 50 |} (Return "alpha beta")
       (Some (λ _, Return ())))
    (demo_file "notes.txt") w
  = (Raise (HTTPException 500 "range() arg 3 must not be zero"), w)
  ∧ index_document
      (demo_env {| CHUNK_SIZE := 50; CHUNK_OVERLAP := 60 |} (Return "alpha beta")
         (Some (λ _, Return ())))
      (demo_file "notes.txt") w
    = (Return {| IndexResponse.status := "success";
                 IndexResponse.filename := "notes.txt";
                 IndexResponse.chunks_indexed := 0;
                 IndexResponse.message := "Successfully indexed 0 chunks" |},
       record_call (GenerateEmbeddings []) w).
Proof.
  intros w. split.
  - exact (proj1 (index_document_bad_settings
                    (demo_env {| CHUNK_SIZE := 50; CHUNK_OVERLAP := 50 |}
                       (Return "alpha beta") (Some (λ _, Return ())))
                    (demo_file "notes.txt") w "alpha beta" eq_refl eq_refl eq_refl)
             eq_refl).
  - exact (proj2 (index_document_bad_settings
                    (demo_env {| CHUNK_SIZE := 50; CHUNK_OVERLAP := 60 |}
                       (Return "alpha beta") (Some (λ _, Return ())))
                    (demo_file "notes.txt") w "alpha beta" eq_refl eq_refl eq_refl)
             eq_refl [] (λ _, Return ()) eq_refl eq_refl eq_refl).
Defined.

Lemma service_keeps_ten_messages_witness :
  session_memory_service
    (demo_world ∅ (λ n, Z.of_nat n) [] (Return "unused"))
  = session_memory_service_init
  ∧ max_history_per_session
      (session_memory_service
         (perform_all [DoChat (demo_request None); DoCleanup;
                       DoChat (demo_request (Some "uuid-0"))]
            (demo_world ∅ (λ n, Z.of_nat n) [] (Return "unused")))) = 10
  ∧ match sessions
            (session_memory_service
               (perform_all [DoChat (demo_request None); DoCleanup;
                             DoChat (demo_request (Some "uuid-0"))]
                  (demo_world ∅ (λ n, Z.of_nat n) [] (Return "unused"))))
          !! "uuid-0" with
    | Some s =>
        session_id s = "uuid-0" ∧ max_history s = 10
        ∧ Py.len (messages s) ≤ 10
    | None => True
    end.
Proof.
  pose proof (service_keeps_ten_messages
                [DoChat (demo_request None); DoCleanup;
                 DoChat (demo_request (Some "uuid-0"))]
                (demo_world ∅ (λ n, Z.of_nat n) [] (Return "unused"))
                eq_refl) as (Hmh & _ & Hall).
  split; [reflexivity|]. split; [exact Hmh|].
  destruct (sessions _ !! "uuid-0") as [s|] eqn:Hs; [|exact I].
  exact (Hall _ _ Hs).
Defined.
